(** * fetch_data.py: export of the card and set metrics as static JSON

    A shallow embedding of [scripts/fetch_data.py] together with the parts
    of the Python runtime the script relies on ([json.dump] with [indent=2],
    [float], [Decimal], [datetime.isoformat]), followed by the properties
    of the exporter stated in the specification. *)

From Stdlib Require Import ZArith NArith List Ascii String Bool Lia.
From Stdlib Require Import Floats.SpecFloat.
Import ListNotations.

Local Open Scope Z_scope.

(** ** Text

    A Python [str] is a sequence of Unicode code points.  Everything the
    encoder writes is ASCII ([ensure_ascii=True]), so the text of a file is
    a list of 8-bit characters. *)

Definition str := list N.
Definition text := list ascii.

Definition t (s : string) : text := list_ascii_of_string s.

Definition code (c : ascii) : N := N_of_ascii c.

Definition s_ (s : string) : str := map code (t s).

(** ** Decimal digits of integers: [int.__repr__], [%0Nd] and [int()] *)

Definition digit_char (d : N) : ascii := ascii_of_N (48 + d).

Fixpoint digits_fuel (fuel : nat) (n : N) (acc : text) : text :=
  match fuel with
  | O => acc
  | S fuel' =>
      let acc' := digit_char (n mod 10) :: acc in
      if (n <? 10)%N then acc' else digits_fuel fuel' (n / 10) acc'
  end.

(** [str(n)] for a natural number [n]. *)
Definition N_digits (n : N) : text := digits_fuel (S (N.to_nat (N.log2 n))) n [].

(** [int.__repr__]. *)
Definition int_repr (z : Z) : text :=
  match z with
  | Zneg p => "-"%char :: N_digits (Npos p)
  | _ => N_digits (Z.to_N z)
  end.

(** ["%0<w>d" % n] for [n >= 0]: left padding with zeros up to [w]. *)
Definition zero_pad (w : nat) (n : N) : text :=
  let ds := N_digits n in
  repeat "0"%char (w - List.length ds) ++ ds.

Definition is_digit (c : ascii) : bool :=
  ((48 <=? code c) && (code c <=? 57))%N.

Definition digit_val (c : ascii) : N := (code c - 48)%N.

(** Value of a run of decimal digits, most significant first. *)
Fixpoint digits_value (ds : text) (acc : N) : N :=
  match ds with
  | [] => acc
  | c :: ds' => digits_value ds' (10 * acc + digit_val c)%N
  end.

(** ** Floating point: IEEE 754 binary64, as CPython's [float] *)

Definition float := spec_float.

Definition prec : Z := 53.
Definition emax : Z := 1024.

(** A finite decimal [(-1)^sign * coeff * 10^exp]. *)
Record decimal := Decimal { dec_sign : bool; dec_coeff : N; dec_exp : Z }.

(** Correctly rounded (nearest, ties to even) binary64 value of a decimal,
    as [float(str)] and [Decimal.__float__] compute it. *)
Definition float_of_decimal (d : decimal) : float :=
  match dec_coeff d with
  | N0 => S754_zero (dec_sign d)
  | Npos c =>
      match dec_exp d with
      | Zneg k =>
          let '(q, e, l) :=
            SFdiv_core_binary prec emax (Zpos c) 0 (Z.pow_pos 10 k) 0 in
          binary_round_aux prec emax (dec_sign d) q e l
      | e10 =>
          binary_round prec emax (dec_sign d) (c * Z.to_pos (10 ^ e10)) 0
      end
  end.

(** *** [float.__repr__]: the shortest decimal string that reads back

    CPython prints a finite float with the fewest significant digits (at
    most 17) whose correctly rounded reading is the float itself, and among
    those the string closest to the exact value. *)

Definition float_is (x : float) (s : bool) (m : positive) (e : Z) : bool :=
  match x with
  | S754_finite s' m' e' => Bool.eqb s s' && Pos.eqb m m' && Z.eqb e e'
  | _ => false
  end.

(** Largest [k] with [10^k <= num/den], searched upwards from [k]. *)
Fixpoint log10_up (fuel : nat) (num den k : Z) : Z :=
  match fuel with
  | O => k
  | S fuel' =>
      if den * 10 ^ (k + 1) <=? num then log10_up fuel' num den (k + 1) else k
  end.

(** Largest [k <= 0] with [10^k <= num/den], searched downwards from [k]. *)
Fixpoint log10_down (fuel : nat) (num den k : Z) : Z :=
  match fuel with
  | O => k
  | S fuel' =>
      if den <=? num * 10 ^ (- k) then k else log10_down fuel' num den (k - 1)
  end.

Definition log10_floor (num den : Z) : Z :=
  if den <=? num
  then log10_up (S (Z.to_nat (Z.log2 num))) num den 0
  else log10_down (S (Z.to_nat (Z.log2 den))) num den 0.

(** The candidate with [n] significant digits, as an integer [c] with
    [c * 10^(-p)] the decimal value, if one reads back as the float. *)
Definition candidate (m : positive) (e : Z) (num den k : Z) (n : Z)
  : option (N * Z) :=
  let p := n - 1 - k in
  let tn := if 0 <=? p then num * 10 ^ p else num in
  let td := if 0 <=? p then den else den * 10 ^ (- p) in
  let lo := tn / td in
  let r := tn mod td in
  let ok c := float_is (float_of_decimal (Decimal false (Z.to_N c) (- p))) false m e in
  if r =? 0 then Some (Z.to_N lo, p)
  else
    match ok lo, ok (lo + 1) with
    | true, true => Some (Z.to_N (if 2 * r <? td then lo else lo + 1), p)
    | true, false => Some (Z.to_N lo, p)
    | false, true => Some (Z.to_N (lo + 1), p)
    | false, false => None
    end.

(** The nearest decimal with 17 significant digits. *)
Definition nearest17 (num den k : Z) : N * Z :=
  let p := 16 - k in
  let tn := if 0 <=? p then num * 10 ^ p else num in
  let td := if 0 <=? p then den else den * 10 ^ (- p) in
  (Z.to_N (if 2 * (tn mod td) <? td then tn / td else tn / td + 1), p).

Fixpoint shortest (fuel : nat) (m : positive) (e : Z) (num den k : Z) (n : Z)
  : N * Z :=
  match fuel with
  | O => nearest17 num den k
  | S fuel' =>
      match candidate m e num den k n with
      | Some c => c
      | None => shortest fuel' m e num den k (n + 1)
      end
  end.

Fixpoint strip_zeros_rev (ds : text) : text :=
  match ds with
  | c :: ds' => if Ascii.eqb c "0" then strip_zeros_rev ds' else ds
  | [] => []
  end.

(** Significant digits [ds] (no trailing zero) and decimal point position
    [decpt] of a positive finite float: its shortest repr is
    [0.ds * 10^decpt]. *)
Definition float_digits (m : positive) (e : Z) : text * Z :=
  let num := match e with Zneg _ => Zpos m | _ => Zpos m * 2 ^ e end in
  let den := match e with Zneg k => Z.pow_pos 2 k | _ => 1 end in
  let k := log10_floor num den in
  let '(c, p) := shortest 17 m e num den k 1 in
  let ds := N_digits c in
  (rev (strip_zeros_rev (rev ds)), Z.of_nat (List.length ds) - p).

(** Layout of the digits, format code ['r'] of [PyOS_double_to_string]
    with [Py_DTSF_ADD_DOT_0]: exponent notation when [decpt <= -4] or
    [decpt > 16]. *)
Definition format_float_short (ds : text) (decpt : Z) : text :=
  let nd := Z.of_nat (List.length ds) in
  if (decpt <=? -4) || (16 <? decpt) then
    let ex := decpt - 1 in
    firstn 1 ds
      ++ (if 1 <? nd then "."%char :: skipn 1 ds else [])
      ++ "e"%char :: (if ex <? 0 then "-"%char else "+"%char)
      :: zero_pad 2 (Z.to_N (Z.abs ex))
  else if decpt <=? 0 then
    t "0." ++ repeat "0"%char (Z.to_nat (- decpt)) ++ ds
  else if nd <=? decpt then
    ds ++ repeat "0"%char (Z.to_nat (decpt - nd)) ++ t ".0"
  else
    firstn (Z.to_nat decpt) ds ++ "."%char :: skipn (Z.to_nat decpt) ds.

Definition float_repr (x : float) : text :=
  match x with
  | S754_zero s => (if s then t "-0.0" else t "0.0")
  | S754_infinity s => (if s then t "-inf" else t "inf")
  | S754_nan => t "nan"
  | S754_finite s m e =>
      let '(ds, decpt) := float_digits m e in
      (if s then [ "-"%char ] else []) ++ format_float_short ds decpt
  end.

(** ** [datetime]: dates, times and [isoformat()] *)

Record date := Date { year : N; month : N; day : N }.

(** [utcoffset] is the offset of an aware value in microseconds, [None]
    for a naive one. *)
Record time := Time {
  hour : N; minute : N; second : N; microsecond : N;
  utcoffset : option Z
}.

Record datetime := Datetime { dt_date : date; dt_time : time }.

Definition colon : ascii := ":"%char.

(** [date.isoformat]: ["%04d-%02d-%02d"]. *)
Definition date_isoformat (d : date) : text :=
  zero_pad 4 (year d) ++ "-"%char :: zero_pad 2 (month d)
    ++ "-"%char :: zero_pad 2 (day d).

(** [_format_time] with [timespec='auto']. *)
Definition format_time (tm : time) : text :=
  zero_pad 2 (hour tm) ++ colon :: zero_pad 2 (minute tm)
    ++ colon :: zero_pad 2 (second tm)
    ++ (if (microsecond tm =? 0)%N then []
        else "."%char :: zero_pad 6 (microsecond tm)).

(** [_format_offset]. *)
Definition format_offset (off : option Z) : text :=
  match off with
  | None => []
  | Some o =>
      let a := Z.abs o in
      let hh := a / 3600000000 in
      let mm := (a mod 3600000000) / 60000000 in
      let ss := a mod 60000000 in
      (if o <? 0 then "-"%char else "+"%char)
        :: zero_pad 2 (Z.to_N hh) ++ colon :: zero_pad 2 (Z.to_N mm)
        ++ (if ss =? 0 then []
            else colon :: zero_pad 2 (Z.to_N (ss / 1000000))
                 ++ (if ss mod 1000000 =? 0 then []
                     else "."%char :: zero_pad 6 (Z.to_N (ss mod 1000000))))
  end.

Definition time_isoformat (tm : time) : text :=
  format_time tm ++ format_offset (utcoffset tm).

(** [datetime.isoformat] with [sep='T']. *)
Definition datetime_isoformat (d : datetime) : text :=
  date_isoformat (dt_date d) ++ "T"%char :: format_time (dt_time d)
    ++ format_offset (utcoffset (dt_time d)).

(** An ASCII text as a Python string. *)
Definition str_of_text (x : text) : str := map code x.

(** ** Exceptions *)

Inductive exn_class :=
| KeyError
| TypeError
| ValueError
| OtherError (name : str).

(** An exception: its class and [str(exc)]. *)
Record exn := Exn { exn_cls : exn_class; exn_str : str }.

Definition class_name (c : exn_class) : str :=
  match c with
  | KeyError => s_ "KeyError"
  | TypeError => s_ "TypeError"
  | ValueError => s_ "ValueError"
  | OtherError n => n
  end.

Definition is_KeyError (e : exn) : bool :=
  match exn_cls e with KeyError => true | _ => false end.

Inductive result (A : Type) :=
| Ok (a : A)
| Raise (e : exn).
Arguments Ok {A} a.
Arguments Raise {A} e.

(** ** Python values

    The values a result row can hold.  [PObject] stands for an instance of
    any other class; what matters to the encoder is its class name and
    what looking up and calling its [isoformat] attribute does. *)

#[warnings="-register-all"]
Inductive isoformat_attr (A : Type) :=
| IsoAbsent                          (* no attribute of that name *)
| IsoNotCallable (cls : str)         (* an attribute that is not callable *)
| IsoRaises (e : exn)                (* calling it raises *)
| IsoReturns (v : A).                (* calling it returns [v] *)
Arguments IsoAbsent {A}.
Arguments IsoNotCallable {A} cls.
Arguments IsoRaises {A} e.
Arguments IsoReturns {A} v.

#[warnings="-register-all"]
Inductive pyobj :=
| PNone
| PBool (b : bool)
| PInt (z : Z)
| PFloat (x : float)
| PStr (s : str)
| PList (l : list pyobj)
| PDict (d : list (str * pyobj))
| PDecimal (d : decimal)
| PDatetime (d : datetime)
| PDate (d : date)
| PTime (tm : time)
| PObject (cls : str) (iso : isoformat_attr pyobj).

(** A Python [dict] with string keys keeps its items in insertion order. *)
Definition dict := list (str * pyobj).

(** JSON-native values: the ones [json] encodes without calling
    [default]. *)
Definition is_native (o : pyobj) : bool :=
  match o with
  | PNone | PBool _ | PInt _ | PFloat _ | PStr _ | PList _ | PDict _ => true
  | _ => false
  end.

Definition is_scalar (o : pyobj) : bool :=
  match o with
  | PNone | PBool _ | PInt _ | PFloat _ | PStr _ => true
  | _ => false
  end.

Definition type_name (o : pyobj) : str :=
  match o with
  | PNone => s_ "NoneType"
  | PBool _ => s_ "bool"
  | PInt _ => s_ "int"
  | PFloat _ => s_ "float"
  | PStr _ => s_ "str"
  | PList _ => s_ "list"
  | PDict _ => s_ "dict"
  | PDecimal _ => s_ "Decimal"
  | PDatetime _ => s_ "datetime"
  | PDate _ => s_ "date"
  | PTime _ => s_ "time"
  | PObject cls _ => cls
  end.

(** ** [json.encoder] *)

Definition quote : ascii := "034"%char.
Definition backslash : ascii := "092"%char.
Definition newline : ascii := "010"%char.

Definition hex_char (d : N) : ascii :=
  if (d <? 10)%N then ascii_of_N (48 + d) else ascii_of_N (87 + d).

(** ['{0:04x}'.format(n)] for [n < 0x10000]. *)
Definition hex4 (n : N) : text :=
  [ hex_char ((n / 4096) mod 16); hex_char ((n / 256) mod 16);
    hex_char ((n / 16) mod 16); hex_char (n mod 16) ]%N.

Definition u_escape (n : N) : text := backslash :: "u"%char :: hex4 n.

(** [replace] of [py_encode_basestring_ascii]: the escape of one code
    point; [ESCAPE_ASCII] matches the backslash, the quote and everything
    outside [' '..'~']. *)
Definition escape_code (c : N) : text :=
  (if c =? 34 then [backslash; quote]
   else if c =? 92 then [backslash; backslash]
   else if c =? 10 then [backslash; "n"%char]
   else if c =? 13 then [backslash; "r"%char]
   else if c =? 9 then [backslash; "t"%char]
   else if c =? 12 then [backslash; "f"%char]
   else if c =? 8 then [backslash; "b"%char]
   else if (32 <=? c) && (c <=? 126) then [ascii_of_N c]
   else if c <? 65536 then u_escape c
   else
     let n := c - 65536 in
     u_escape (N.lor 55296 (N.land (N.shiftr n 10) 1023))
       ++ u_escape (N.lor 56320 (N.land n 1023)))%N.

Definition encode_basestring_ascii (s : str) : text :=
  quote :: flat_map escape_code s ++ [quote].

(** [floatstr] with [allow_nan=True]. *)
Definition floatstr (x : float) : text :=
  match x with
  | S754_nan => t "NaN"
  | S754_infinity false => t "Infinity"
  | S754_infinity true => t "-Infinity"
  | _ => float_repr x
  end.

(** What the encoder has yielded so far, and the exception that stopped
    it, if any.  [json.dump] writes every chunk to the file as soon as it
    is yielded, so the text yielded before an exception is in the file. *)
Record output := Out { written : text; raised : option exn }.

Definition yield (x : text) : output := Out x None.
Definition throw (e : exn) : output := Out [] (Some e).

Definition andthen (a b : output) : output :=
  match raised a with
  | Some _ => a
  | None => Out (written a ++ written b) (raised b)
  end.

Notation "a >> b" := (andthen a b) (at level 61, right associativity).

(** The items of a container, the separator between consecutive items. *)
Fixpoint join (sep : text) (items : list output) : output :=
  match items with
  | [] => yield []
  | [x] => x
  | x :: rest => x >> yield sep >> join sep rest
  end.

(** [indent=2]: [_indent = ' ' * 2], [item_separator = ','],
    [key_separator = ': ']. *)
Definition indent : text := t "  ".
Definition newline_indent (level : nat) : text :=
  newline :: List.concat (repeat indent level).
Definition item_separator : text := t ",".
Definition key_separator : text := t ": ".

Definition not_serializable (cls : str) : exn :=
  Exn TypeError (s_ "Object of type " ++ cls ++ s_ " is not JSON serializable").

Definition not_callable (cls : str) : exn :=
  Exn TypeError (s_ "'" ++ cls ++ s_ "' object is not callable").

(** ** [_BQEncoder]

    [default] is what [json] calls for a value that is not JSON-native. *)

Definition isinstance_Decimal (o : pyobj) : bool :=
  match o with PDecimal _ => true | _ => false end.

Definition isinstance_datetime (o : pyobj) : bool :=
  match o with PDatetime _ => true | _ => false end.

(** [hasattr(obj, "isoformat")]. *)
Definition hasattr_isoformat (o : pyobj) : bool :=
  match o with
  | PDatetime _ | PDate _ | PTime _ => true
  | PObject _ IsoAbsent => false
  | PObject _ _ => true
  | _ => false
  end.

(** [float(obj)] for a [Decimal]. *)
Definition py_float (o : pyobj) : result pyobj :=
  match o with
  | PDecimal d => Ok (PFloat (float_of_decimal d))
  | PFloat x => Ok o
  | _ => Raise (Exn TypeError (s_ "float() argument must be a string or a real number"))
  end.

(** [obj.isoformat()]. *)
Definition call_isoformat (o : pyobj) : result pyobj :=
  match o with
  | PDatetime d => Ok (PStr (str_of_text (datetime_isoformat d)))
  | PDate d => Ok (PStr (str_of_text (date_isoformat d)))
  | PTime tm => Ok (PStr (str_of_text (time_isoformat tm)))
  | PObject _ (IsoReturns v) => Ok v
  | PObject _ (IsoRaises e) => Raise e
  | PObject _ (IsoNotCallable cls) => Raise (not_callable cls)
  | _ => Raise (Exn (OtherError (s_ "AttributeError")) (s_ "isoformat"))
  end.

(** [json.JSONEncoder.default]: always raises. *)
Definition super_default (o : pyobj) : result pyobj :=
  Raise (not_serializable (type_name o)).

Definition default (obj : pyobj) : result pyobj :=
  if isinstance_Decimal obj then py_float obj
  else if isinstance_datetime obj then call_isoformat obj
  else if hasattr_isoformat obj then call_isoformat obj
  else super_default obj.

(** [_iterencode] of [_make_iterencode], at indentation level [level].
    For a value that is not JSON-native the encoder continues with
    [default(o)]; the recursion on that result is written out case by
    case here, and [iterencode_default] below states it in the source's
    form. *)
Fixpoint iterencode (o : pyobj) (level : nat) {struct o} : output :=
  match o with
  | PStr s => yield (encode_basestring_ascii s)
  | PNone => yield (t "null")
  | PBool true => yield (t "true")
  | PBool false => yield (t "false")
  | PInt z => yield (int_repr z)
  | PFloat x => yield (floatstr x)
  | PList [] => yield (t "[]")
  | PList l =>
      yield ("["%char :: newline_indent (S level)) >>
      join (item_separator ++ newline_indent (S level))
           (map (fun v => iterencode v (S level)) l) >>
      yield (newline_indent level ++ t "]")
  | PDict [] => yield (t "{}")
  | PDict d =>
      yield ("{"%char :: newline_indent (S level)) >>
      join (item_separator ++ newline_indent (S level))
           (map (fun kv =>
                   match kv with
                   | (k, v) =>
                       yield (encode_basestring_ascii k ++ key_separator) >>
                       iterencode v (S level)
                   end) d) >>
      yield (newline_indent level ++ t "}")
  | PDecimal d => yield (floatstr (float_of_decimal d))
  | PDatetime d =>
      yield (encode_basestring_ascii (str_of_text (datetime_isoformat d)))
  | PDate d =>
      yield (encode_basestring_ascii (str_of_text (date_isoformat d)))
  | PTime tm =>
      yield (encode_basestring_ascii (str_of_text (time_isoformat tm)))
  | PObject cls iso =>
      match iso with
      | IsoAbsent => throw (not_serializable cls)
      | IsoNotCallable c => throw (not_callable c)
      | IsoRaises e => throw e
      | IsoReturns v => iterencode v level
      end
  end.

(** [json.dump(payload, fh, indent=2, cls=_BQEncoder)]: the chunks written
    to [fh], and the exception raised, if any. *)
Definition json_dump (payload : pyobj) : output := iterencode payload 0.

(** ** The process and its surroundings *)

Fixpoint str_eqb (a b : str) : bool :=
  match a, b with
  | [], [] => true
  | x :: a', y :: b' => (x =? y)%N && str_eqb a' b'
  | _, _ => false
  end.

(** A result row as the warehouse client hands it over: the column names
    with their values, in column order. *)
Definition row := list (str * pyobj).

(** What the process finds around it: its environment variables, the
    readings of the clock, and the warehouse behind the client library. *)
Record surroundings := Surroundings {
  environ : list (str * str);
  clock : nat -> datetime;
  connect : str -> option exn;
  warehouse : str -> result (list row)
}.

Inductive event :=
| EConnect (project : str)           (* bigquery.Client(project=...) *)
| ENow                               (* datetime.now(timezone.utc) *)
| EQuery (sql : str)                 (* client.query(sql).result() *)
| EWrite (path : str) (complete : bool).
                                     (* open(path, "w"), json.dump, close *)

(** The observable state: the files, what was printed, the calls made to
    the outside in order, and how often the clock was read. *)
Record world := World {
  files : str -> option text;
  stdout : list str;
  stderr : list str;
  events : list event;
  ticks : nat
}.

Definition M (A : Type) : Type := world -> result A * world.

Definition ret {A} (a : A) : M A := fun w => (Ok a, w).
Definition raise {A} (e : exn) : M A := fun w => (Raise e, w).
Definition bind {A B} (c : M A) (k : A -> M B) : M B :=
  fun w =>
    match c w with
    | (Ok a, w') => k a w'
    | (Raise e, w') => (Raise e, w')
    end.

Notation "x <- c ;; k" := (bind c (fun x => k))
  (at level 61, c at next level, right associativity).
Notation "c ;; k" := (bind c (fun _ => k))
  (at level 61, right associativity).

Definition log (ev : event) : M unit :=
  fun w => (Ok tt, World (files w) (stdout w) (stderr w)
                         (events w ++ [ev]) (ticks w)).

(** [print(line)]. *)
Definition print (line : str) : M unit :=
  fun w => (Ok tt, World (files w) (stdout w ++ [line]) (stderr w)
                         (events w) (ticks w)).

(** [print(line, file=sys.stderr)]. *)
Definition eprint (line : str) (w : world) : world :=
  World (files w) (stdout w) (stderr w ++ [line]) (events w) (ticks w).

Definition set_file (path : str) (content : text) (w : world) : world :=
  World (fun p => if str_eqb p path then Some content else files w p)
        (stdout w) (stderr w) (events w) (ticks w).

(** [datetime.now(timezone.utc)]: the next reading of the clock, made
    aware with offset zero. *)
Definition datetime_now_utc (E : surroundings) : M datetime :=
  fun w =>
    let d := clock E (ticks w) in
    let tm := dt_time d in
    (Ok (Datetime (dt_date d)
           (Time (hour tm) (minute tm) (second tm) (microsecond tm) (Some 0))),
     World (files w) (stdout w) (stderr w) (events w ++ [ENow]) (S (ticks w))).

Record client := Client { project : str }.

(** [bigquery.Client(project=...)]. *)
Definition bigquery_Client (E : surroundings) (proj : str) : M client :=
  log (EConnect proj) ;;
  match connect E proj with
  | Some e => raise e
  | None => ret (Client proj)
  end.

(** [client.query(sql).result()]. *)
Definition query_result (E : surroundings) (c : client) (sql : str)
  : M (list row) :=
  log (EQuery sql) ;;
  match warehouse E sql with
  | Ok rows => ret rows
  | Raise e => raise e
  end.

(** [d[k] = v]. *)
Fixpoint dict_set (d : dict) (k : str) (v : pyobj) : dict :=
  match d with
  | [] => [(k, v)]
  | (k', v') :: d' =>
      if str_eqb k k' then (k', v) :: d' else (k', v') :: dict_set d' k v
  end.

(** [dict(items)]. *)
Definition py_dict (items : list (str * pyobj)) : dict :=
  fold_left (fun d kv => dict_set d (fst kv) (snd kv)) items [].

(** [d[k]]. *)
Fixpoint dict_get (d : dict) (k : str) : option pyobj :=
  match d with
  | [] => None
  | (k', v) :: d' => if str_eqb k k' then Some v else dict_get d' k
  end.

Definition nl : str := [10%N].

(** [str.isspace] of one code point. *)
Definition is_space (c : N) : bool :=
  ((9 <=? c) && (c <=? 13) || (28 <=? c) && (c <=? 32) || (c =? 133)
   || (c =? 160) || (c =? 5760) || (8192 <=? c) && (c <=? 8202)
   || (c =? 8232) || (c =? 8233) || (c =? 8239) || (c =? 8287)
   || (c =? 12288))%N.

Fixpoint lstrip (s : str) : str :=
  match s with
  | c :: s' => if is_space c then lstrip s' else s
  | [] => []
  end.

(** [s.strip()]. *)
Definition strip (s : str) : str := rev (lstrip (rev (lstrip s))).

(** [str(v)] as an f-string formats it.  Only [int] occurs in the script;
    containers and instances are shown by their type name. *)
Definition py_str (v : pyobj) : str :=
  match v with
  | PNone => s_ "None"
  | PBool true => s_ "True"
  | PBool false => s_ "False"
  | PInt z => str_of_text (int_repr z)
  | PFloat x => str_of_text (float_repr x)
  | PStr s => s
  | _ => s_ "<" ++ type_name v ++ s_ ">"
  end.

(** [repr(k)] of a string without quotes, backslashes or control
    characters: what [str(KeyError(k))] shows. *)
Definition key_repr (k : str) : str := s_ "'" ++ k ++ s_ "'".

(** ** [scripts/fetch_data.py] *)

Fixpoint environ_get (env : list (str * str)) (k : str) : option str :=
  match env with
  | [] => None
  | (k', v) :: env' => if str_eqb k k' then Some v else environ_get env' k
  end.

(** The module-level names bound from the environment. *)
Record globals := Globals { PROJECT_ID : str; DATASET : str }.

(** Lines 18-19: [os.environ["GCP_PROJECT_ID"]] raises [KeyError] when the
    variable is absent; [os.environ.get("BQ_DATASET", ...)] has a
    default. *)
Definition load_globals (E : surroundings) : result globals :=
  match environ_get (environ E) (s_ "GCP_PROJECT_ID") with
  | None => Raise (Exn KeyError (key_repr (s_ "GCP_PROJECT_ID")))
  | Some p =>
      Ok (Globals p
            match environ_get (environ E) (s_ "BQ_DATASET") with
            | Some d => d
            | None => s_ "tcg_price_oracle"
            end)
  end.

Definition OUTPUT_DIR : str := s_ "static/data".

Definition lines (ls : list str) : str := flat_map (fun l => l ++ nl) ls.

Definition CARD_METRICS_QUERY (G : globals) : str :=
  nl ++ lines
    [ s_ "SELECT"; s_ "  set_id,"; s_ "  month,"; s_ "  card_number,";
      s_ "  card_name,"; s_ "  rarity,"; s_ "  raw_price,";
      s_ "  psa_10_price,"; s_ "  psa_9_price,"; s_ "  tag_10_price,";
      s_ "  ace_10_price,"; s_ "  cgc_10_price,"; s_ "  bgs_10_price,";
      s_ "  bgs_10_black_label_price,"; s_ "  cgc_10_pristine_price";
      s_ "FROM";
      s_ "  `" ++ PROJECT_ID G ++ s_ "." ++ DATASET G ++ s_ ".card_metrics`";
      s_ "ORDER BY"; s_ "  month DESC,"; s_ "  set_id,"; s_ "  card_number" ].

Definition SET_METRICS_QUERY (G : globals) : str :=
  nl ++ lines
    [ s_ "SELECT"; s_ "  set_id,"; s_ "  month,"; s_ "  ev,";
      s_ "  set_value,"; s_ "  top_5_value,"; s_ "  top_5_ratio";
      s_ "FROM";
      s_ "  `" ++ PROJECT_ID G ++ s_ "." ++ DATASET G ++ s_ ".set_metrics`";
      s_ "ORDER BY"; s_ "  month DESC,"; s_ "  set_id" ].

Definition run_query (E : surroundings) (c : client) (sql : str)
  : M (list dict) :=
  print (s_ "Running query:" ++ nl ++ strip sql ++ nl) ;;
  rows <- query_result E c sql ;;
  ret (map py_dict rows).

(** [with open(path, "w") as fh: json.dump(payload, fh, ...)]: the file is
    created or truncated, receives the chunks the encoder yields, and is
    closed; an exception of the encoder leaves the chunks yielded before
    it in the file and propagates. *)
Definition dump_to_file (payload : pyobj) (path : str) : M unit :=
  fun w =>
    let out := json_dump payload in
    let w' := set_file path (written out) w in
    match raised out with
    | None =>
        (Ok tt, World (files w') (stdout w') (stderr w')
                      (events w' ++ [EWrite path true]) (ticks w'))
    | Some e =>
        (Raise e, World (files w') (stdout w') (stderr w')
                        (events w' ++ [EWrite path false]) (ticks w'))
    end.

(** [payload[k]]. *)
Definition getitem (d : dict) (k : str) : M pyobj :=
  match dict_get d k with
  | Some v => ret v
  | None => raise (Exn KeyError (key_repr k))
  end.

Definition arrow : str := [8594%N].

Definition write_json (payload : dict) (filename : str) : M unit :=
  let path := OUTPUT_DIR ++ s_ "/" ++ filename in
  dump_to_file (PDict payload) path ;;
  rc <- getitem payload (s_ "record_count") ;;
  print (s_ "Written " ++ py_str rc ++ s_ " records " ++ arrow ++ s_ " "
           ++ path).

(** [len(rows)]. *)
Definition len {A} (l : list A) : Z := Z.of_nat (List.length l).

(** [{"last_updated": now, "record_count": len(rows), "data": rows}]. *)
Definition envelope (now : str) (rows : list dict) : dict :=
  [ (s_ "last_updated", PStr now);
    (s_ "record_count", PInt (len rows));
    (s_ "data", PList (map PDict rows)) ].

Definition main (E : surroundings) (G : globals) : M unit :=
  c <- bigquery_Client E (PROJECT_ID G) ;;
  d <- datetime_now_utc E ;;
  let now := str_of_text (datetime_isoformat d) in
  card_rows <- run_query E c (CARD_METRICS_QUERY G) ;;
  write_json (envelope now card_rows) (s_ "card_metrics.json") ;;
  set_rows <- run_query E c (SET_METRICS_QUERY G) ;;
  write_json (envelope now set_rows) (s_ "set_metrics.json") ;;
  print (s_ "Done.").

(** How the process ends: the state it leaves and its exit code. *)
Record outcome := Outcome { final : world; exit_code : Z }.

(** An exception nobody catches: the interpreter prints the traceback,
    whose last line names the exception, on the error stream and exits
    with status 1.  The stack frames of the traceback are left out. *)
Definition uncaught (e : exn) (w : world) : outcome :=
  Outcome
    (eprint (class_name (exn_cls e)
               ++ (match exn_str e with [] => [] | m => s_ ": " ++ m end))
       (eprint (s_ "Traceback (most recent call last):") w))
    1.

(** The script run as a program.  The module body runs first (lines
    18-65), then the [__main__] guard (lines 123-128) calls [main] inside
    [try ... except KeyError]. *)
Definition script (E : surroundings) (w : world) : outcome :=
  match load_globals E with
  | Raise e => uncaught e w
  | Ok G =>
      match main E G w with
      | (Ok _, w') => Outcome w' 0
      | (Raise e, w') =>
          if is_KeyError e then
            Outcome
              (eprint (s_ "ERROR: missing required environment variable "
                         ++ exn_str e) w')
              1
          else uncaught e w'
      end
  end.

(** ** [json.decoder]: reading a document back

    [json.loads] on the decoded text of a file.  The files the encoder
    writes are ASCII, where decoding UTF-8 changes nothing; a character
    outside ASCII is refused here. *)

Definition is_ws (c : ascii) : bool :=
  let n := code c in ((n =? 32) || (n =? 9) || (n =? 10) || (n =? 13))%N.

Fixpoint skip_ws (s : text) : text :=
  match s with
  | c :: r => if is_ws c then skip_ws r else s
  | [] => []
  end.

Definition hex_val (c : ascii) : option N :=
  let n := code c in
  (if (48 <=? n) && (n <=? 57) then Some (n - 48)
   else if (97 <=? n) && (n <=? 102) then Some (n - 87)
   else if (65 <=? n) && (n <=? 70) then Some (n - 55)
   else None)%N.

(** [_decode_uXXXX]: four hexadecimal digits. *)
Definition decode_hex4 (a b c d : ascii) : option N :=
  match hex_val a, hex_val b, hex_val c, hex_val d with
  | Some x, Some y, Some z, Some w => Some (4096 * x + 256 * y + 16 * z + w)%N
  | _, _, _, _ => None
  end.

(** The table [BACKSLASH]. *)
Definition unescape (c : ascii) : option N :=
  let n := code c in
  (if n =? 34 then Some 34
   else if n =? 92 then Some 92
   else if n =? 47 then Some 47
   else if n =? 98 then Some 8
   else if n =? 102 then Some 12
   else if n =? 110 then Some 10
   else if n =? 114 then Some 13
   else if n =? 116 then Some 9
   else None)%N.

Definition is_high_surrogate (n : N) : bool := ((55296 <=? n) && (n <=? 56319))%N.
Definition is_low_surrogate (n : N) : bool := ((56320 <=? n) && (n <=? 57343))%N.

Definition cons_fst {A B} (a : A) (r : option (list A * B)) : option (list A * B) :=
  match r with
  | Some (l, b) => Some (a :: l, b)
  | None => None
  end.

(** [py_scanstring] with [strict=True], from just after the opening
    quote: the string and the text after its closing quote. *)
Fixpoint scanstring (s : text) : option (str * text) :=
  match s with
  | [] => None
  | c :: r =>
      if (code c =? 34)%N then Some ([], r)
      else if (code c =? 92)%N then
        match r with
        | [] => None
        | e :: r1 =>
            if (code e =? 117)%N then
              match r1 with
              | h1 :: h2 :: h3 :: h4 :: r2 =>
                  match decode_hex4 h1 h2 h3 h4 with
                  | None => None
                  | Some uni =>
                      match r2 with
                      | b :: u :: g1 :: g2 :: g3 :: g4 :: r3 =>
                          if is_high_surrogate uni && (code b =? 92)%N
                             && (code u =? 117)%N then
                            match decode_hex4 g1 g2 g3 g4 with
                            | None => None
                            | Some uni2 =>
                                if is_low_surrogate uni2 then
                                  cons_fst
                                    (65536 + N.lor (N.shiftl (uni - 55296) 10)
                                                   (uni2 - 56320))%N
                                    (scanstring r3)
                                else cons_fst uni (scanstring r2)
                            end
                          else cons_fst uni (scanstring r2)
                      | b :: u :: _ =>
                          if is_high_surrogate uni && (code b =? 92)%N
                             && (code u =? 117)%N then None
                          else cons_fst uni (scanstring r2)
                      | _ => cons_fst uni (scanstring r2)
                      end
                  end
              | _ => None
              end
            else
              match unescape e with
              | Some n => cons_fst n (scanstring r1)
              | None => None
              end
        end
      else if (code c <? 32)%N || (127 <? code c)%N then None
      else cons_fst (code c) (scanstring r)
  end.

Fixpoint span_digits (s : text) : text * text :=
  match s with
  | c :: r =>
      if is_digit c then let '(ds, r') := span_digits r in (c :: ds, r')
      else ([], s)
  | [] => ([], [])
  end.

(** The integer part of [NUMBER_RE]: [0|[1-9][0-9]*]. *)
Definition scan_int_part (s : text) : option (text * text) :=
  match s with
  | c :: r =>
      if (code c =? 48)%N then Some ([c], r)
      else if is_digit c then let '(ds, r') := span_digits r in Some (c :: ds, r')
      else None
  | [] => None
  end.

(** The optional fraction [(\.[0-9]+)?]. *)
Definition scan_frac (s : text) : option text * text :=
  match s with
  | p :: c :: r =>
      if (code p =? 46)%N && is_digit c then
        let '(ds, r') := span_digits r in (Some (c :: ds), r')
      else (None, s)
  | _ => (None, s)
  end.

(** The optional exponent [([eE][-+]?[0-9]+)?]. *)
Definition scan_exp (s : text) : option Z * text :=
  match s with
  | e :: r =>
      if (code e =? 101)%N || (code e =? 69)%N then
        match r with
        | c :: r1 =>
            if is_digit c then
              let '(ds, r') := span_digits r1 in
              (Some (Z.of_N (digits_value (c :: ds) 0)), r')
            else if (code c =? 43)%N || (code c =? 45)%N then
              match r1 with
              | c1 :: r2 =>
                  if is_digit c1 then
                    let '(ds, r') := span_digits r2 in
                    let v := Z.of_N (digits_value (c1 :: ds) 0) in
                    (Some (if (code c =? 45)%N then - v else v), r')
                  else (None, s)
              | [] => (None, s)
              end
            else (None, s)
        | [] => (None, s)
        end
      else (None, s)
  | [] => (None, s)
  end.

(** [match_number] and the conversion of the match: [int(integer)]
    without fraction and exponent, [float(integer + frac + exp)]
    otherwise. *)
Definition scan_number (s : text) : option (pyobj * text) :=
  let '(neg, s1) :=
    match s with
    | c :: r => if (code c =? 45)%N then (true, r) else (false, s)
    | [] => (false, s)
    end in
  match scan_int_part s1 with
  | None => None
  | Some (ip, s2) =>
      let '(fr, s3) := scan_frac s2 in
      let '(ex, s4) := scan_exp s3 in
      match fr, ex with
      | None, None =>
          let v := Z.of_N (digits_value ip 0) in
          Some (PInt (if neg then - v else v), s4)
      | _, _ =>
          let fd := match fr with Some ds => ds | None => [] end in
          let e := match ex with Some e => e | None => 0 end in
          Some (PFloat (float_of_decimal
                          (Decimal neg (digits_value (ip ++ fd) 0)
                                   (e - Z.of_nat (List.length fd)))), s4)
      end
  end.

(** [s] starts with the characters of [p]: the rest of [s]. *)
Fixpoint strip_prefix (p s : text) : option text :=
  match p, s with
  | [], _ => Some s
  | a :: p', b :: s' => if Ascii.eqb a b then strip_prefix p' s' else None
  | _ :: _, [] => None
  end.

(** [_scan_once], [JSONObject] and [JSONArray].  [fuel] bounds the number
    of values read; the length of the text is always enough. *)
Fixpoint scan_once (fuel : nat) (s : text) {struct fuel}
  : option (pyobj * text) :=
  match fuel with
  | O => None
  | S f =>
      match s with
      | [] => None
      | c :: r =>
          if (code c =? 34)%N then
            match scanstring r with
            | Some (x, r') => Some (PStr x, r')
            | None => None
            end
          else if (code c =? 123)%N then
            match skip_ws r with
            | c1 :: r1 =>
                if (code c1 =? 125)%N then Some (PDict [], r1)
                else if (code c1 =? 34)%N then
                  match object_members f r1 with
                  | Some (ps, r') => Some (PDict (py_dict ps), r')
                  | None => None
                  end
                else None
            | [] => None
            end
          else if (code c =? 91)%N then
            match skip_ws r with
            | c1 :: r1 =>
                if (code c1 =? 93)%N then Some (PList [], r1)
                else
                  match array_items f (c1 :: r1) with
                  | Some (vs, r') => Some (PList vs, r')
                  | None => None
                  end
            | [] => None
            end
          else
            match strip_prefix (t "null") s, strip_prefix (t "true") s,
                  strip_prefix (t "false") s with
            | Some r', _, _ => Some (PNone, r')
            | _, Some r', _ => Some (PBool true, r')
            | _, _, Some r' => Some (PBool false, r')
            | None, None, None =>
                match scan_number s with
                | Some res => Some res
                | None =>
                    match strip_prefix (t "NaN") s,
                          strip_prefix (t "Infinity") s,
                          strip_prefix (t "-Infinity") s with
                    | Some r', _, _ => Some (PFloat S754_nan, r')
                    | _, Some r', _ => Some (PFloat (S754_infinity false), r')
                    | _, _, Some r' => Some (PFloat (S754_infinity true), r')
                    | None, None, None => None
                    end
                end
            end
      end
  end

(** The members of an object, from just after the opening quote of a
    key. *)
with object_members (fuel : nat) (s : text) {struct fuel}
  : option (list (str * pyobj) * text) :=
  match fuel with
  | O => None
  | S f =>
      match scanstring s with
      | None => None
      | Some (key, r) =>
          match skip_ws r with
          | c :: r1 =>
              if (code c =? 58)%N then
                match scan_once f (skip_ws r1) with
                | None => None
                | Some (v, r2) =>
                    match skip_ws r2 with
                    | c2 :: r3 =>
                        if (code c2 =? 125)%N then Some ([(key, v)], r3)
                        else if (code c2 =? 44)%N then
                          match skip_ws r3 with
                          | q :: r4 =>
                              if (code q =? 34)%N then
                                cons_fst (key, v) (object_members f r4)
                              else None
                          | [] => None
                          end
                        else None
                    | [] => None
                    end
                end
              else None
          | [] => None
          end
      end
  end

(** The items of an array, from the first character of an item. *)
with array_items (fuel : nat) (s : text) {struct fuel}
  : option (list pyobj * text) :=
  match fuel with
  | O => None
  | S f =>
      match scan_once f s with
      | None => None
      | Some (v, r) =>
          match skip_ws r with
          | c :: r1 =>
              if (code c =? 93)%N then Some ([v], r1)
              else if (code c =? 44)%N then
                cons_fst v (array_items f (skip_ws r1))
              else None
          | [] => None
          end
      end
  end.

(** [json.loads]: one value, surrounded by optional whitespace, and
    nothing after it. *)
Definition json_loads (s : text) : option pyobj :=
  match scan_once (S (List.length s)) (skip_ws s) with
  | Some (v, r) => match skip_ws r with [] => Some v | _ => None end
  | None => None
  end.

(** ** Vocabulary of the statements *)

(** The process starts with nothing printed and no call made; the files
    already present are arbitrary. *)
Definition start (fs : str -> option text) : world := World fs [] [] [] 0.

(** The two export jobs of a run. *)
Inductive job := CardMetrics | SetMetrics.

Definition job_query (G : globals) (j : job) : str :=
  match j with
  | CardMetrics => CARD_METRICS_QUERY G
  | SetMetrics => SET_METRICS_QUERY G
  end.

Definition job_path (j : job) : str :=
  match j with
  | CardMetrics => OUTPUT_DIR ++ s_ "/" ++ s_ "card_metrics.json"
  | SetMetrics => OUTPUT_DIR ++ s_ "/" ++ s_ "set_metrics.json"
  end.

(** The timestamp string of the [n]-th reading of the clock. *)
Definition reading (E : surroundings) (n : nat) : str :=
  let d := clock E n in
  let tm := dt_time d in
  str_of_text
    (datetime_isoformat
       (Datetime (dt_date d)
          (Time (hour tm) (minute tm) (second tm) (microsecond tm) (Some 0)))).

(** [needle] occurs in [line]. *)
Definition names (line needle : str) : Prop :=
  exists pre post, line = pre ++ needle ++ post.

(** The message line [run_query] prints. *)
Definition running (sql : str) : str :=
  s_ "Running query:" ++ nl ++ strip sql ++ nl.

(** The message line [write_json] prints. *)
Definition written_line (n : Z) (path : str) : str :=
  s_ "Written " ++ str_of_text (int_repr n) ++ s_ " records " ++ arrow
    ++ s_ " " ++ path.

(** The first line of an envelope: the opening brace and the
    [last_updated] member with its separator. *)
Definition timestamp_line (now : str) : text :=
  "{"%char :: newline_indent 1
    ++ (encode_basestring_ascii (s_ "last_updated") ++ key_separator)
    ++ encode_basestring_ascii now ++ item_separator.

(** The text of an envelope up to the value of ["data"]. *)
Definition envelope_head (now : str) (n : Z) : text :=
  timestamp_line now ++ newline_indent 1
    ++ (encode_basestring_ascii (s_ "record_count") ++ key_separator)
    ++ int_repr n ++ item_separator ++ newline_indent 1
    ++ encode_basestring_ascii (s_ "data") ++ key_separator.

(** The closing brace of an envelope. *)
Definition envelope_tail : text := newline_indent 0 ++ t "}".

(** The texts of the items with the separator between neighbours. *)
Fixpoint intercalate (sep : text) (items : list text) : text :=
  match items with
  | [] => []
  | [x] => x
  | x :: rest => x ++ sep ++ intercalate sep rest
  end.

(** A JSON array at indentation [level] whose items have the given
    texts, in that order. *)
Definition array_text (level : nat) (items : list text) : text :=
  match items with
  | [] => t "[]"
  | _ =>
      "["%char :: newline_indent (S level)
        ++ intercalate (item_separator ++ newline_indent (S level)) items
        ++ newline_indent level ++ t "]"
  end.

(** Surroundings used to exercise the statements: a project, a clock
    stopped on 15 January 2024, and a warehouse that answers every query
    with the given rows. *)
Definition a_moment : datetime :=
  Datetime (Date 2024 1 15) (Time 10 30 0 0 None).

Definition mock (env : list (str * str)) (answer : result (list row))
  : surroundings :=
  Surroundings env (fun _ => a_moment) (fun _ => None) (fun _ => answer).

Definition with_project : list (str * str) :=
  [(s_ "GCP_PROJECT_ID", s_ "my-project")].

Definition no_files : str -> option text := fun _ => None.

(** The row of the specification's scenario. *)
Definition scenario_row : row :=
  [ (s_ "set_id", PStr (s_ "SV1"));
    (s_ "month", PStr (s_ "2024-01"));
    (s_ "card_number", PStr (s_ "001"));
    (s_ "raw_price", PDecimal (Decimal false 1250 (-2))) ].

Definition my_globals : globals :=
  Globals (s_ "my-project") (s_ "tcg_price_oracle").

(** A failure of the warehouse. *)
Definition outage : exn :=
  Exn (OtherError (s_ "ServiceUnavailable")) (s_ "503").

(** Another environment: a different project and dataset. *)
Definition other_project : list (str * str) :=
  [(s_ "BQ_DATASET", s_ "staging"); (s_ "GCP_PROJECT_ID", s_ "other")].

Definition other_globals : globals := Globals (s_ "other") (s_ "staging").

(** A file system that already holds an older export. *)
Definition old_files : str -> option text :=
  fun p => if str_eqb p (job_path CardMetrics) then Some (t "{}") else None.

(** The types the specification lists as convertible: the JSON-native
    scalars, the arbitrary-precision decimal and the date/time types. *)
Definition listed_convertible (o : pyobj) : bool :=
  is_scalar o || isinstance_Decimal o
  || match o with PDatetime _ | PDate _ | PTime _ => true | _ => false end.

(** An instance whose [isoformat] attribute is a number, not a method. *)
Definition odd_object : pyobj := PObject (s_ "Odd") (IsoNotCallable (s_ "int")).

(** An instance of a class that is no date or time but has an
    [isoformat] method. *)
Definition money : pyobj :=
  PObject (s_ "Money") (IsoReturns (PStr (s_ "12 EUR"))).

(** A value of a type the encoder has no conversion for. *)
Definition some_bytes : pyobj := PObject (s_ "bytes") IsoAbsent.

(** ** Values that read back

    The JSON value of a Python value: what the specification calls its
    JSON-safe form.  Decimals become floats, dates and times become their
    ISO strings, an instance becomes what its [isoformat()] returns;
    everything JSON-native stays as it is. *)
Fixpoint json_safe (o : pyobj) : pyobj :=
  match o with
  | PList l => PList (map json_safe l)
  | PDict d =>
      PDict (map (fun kv => match kv with (k, v) => (k, json_safe v) end) d)
  | PDecimal d => PFloat (float_of_decimal d)
  | PDatetime d => PStr (str_of_text (datetime_isoformat d))
  | PDate d => PStr (str_of_text (date_isoformat d))
  | PTime tm => PStr (str_of_text (time_isoformat tm))
  | PObject _ (IsoReturns v) => json_safe v
  | _ => o
  end.

(** Unicode scalar values: the code points of well-formed text, that is
    all code points up to U+10FFFF except the surrogates. *)
Definition is_unicode_scalar (c : N) : bool :=
  ((c <? 55296) || ((57344 <=? c) && (c <? 1114112)))%N.

Definition valid_str (s : str) : bool := forallb is_unicode_scalar s.

Definition float_same (x y : float) : bool :=
  match x, y with
  | S754_zero a, S754_zero b => Bool.eqb a b
  | S754_infinity a, S754_infinity b => Bool.eqb a b
  | S754_nan, S754_nan => true
  | S754_finite a m e, S754_finite b m' e' =>
      Bool.eqb a b && Pos.eqb m m' && Z.eqb e e'
  | _, _ => false
  end.

(** [float(repr(x)) == x]: the text written for the float reads back as
    the same float.  CPython guarantees it for every float; here it is a
    property that can be computed for each value. *)
Definition float_reads_back (x : float) : bool :=
  match x with
  | S754_nan | S754_infinity _ => true
  | _ =>
      match scan_number (floatstr x) with
      | Some (PFloat y, []) => float_same x y
      | _ => false
      end
  end.

Fixpoint distinct (ks : list str) : bool :=
  match ks with
  | [] => true
  | k :: ks' => negb (existsb (str_eqb k) ks') && distinct ks'
  end.

(** Values as the warehouse returns them: strings are well-formed text,
    the keys of a dictionary are distinct, floats read back. *)
Fixpoint well_formed (o : pyobj) : bool :=
  match o with
  | PFloat x => float_reads_back x
  | PStr s => valid_str s
  | PList l => forallb well_formed l
  | PDict d =>
      distinct (map fst d)
      && forallb (fun kv => match kv with
                            | (k, v) => valid_str k && well_formed v
                            end) d
  | PDecimal d => float_reads_back (float_of_decimal d)
  | PObject _ (IsoReturns v) => well_formed v
  | _ => true
  end.

(** A value is followed by a comma, a line break, or nothing. *)
Definition delimited (rest : text) : Prop :=
  match rest with
  | [] => True
  | c :: _ => c = ","%char \/ c = newline
  end.

(** [ds] is the decimal numeral of [n]: digits only, no leading zero,
    and the value read from them is [n]. *)
Definition digits_of (n : N) (ds : text) : Prop :=
  ds <> []
  /\ forallb is_digit ds = true
  /\ (forall a, digits_value ds a = (a * 10 ^ N.of_nat (List.length ds) + n)%N)
  /\ match ds with
     | c :: r => code c = 48%N -> n = 0%N /\ r = []
     | [] => False
     end.

(** ** Induction on values *)

Section PyobjInd.
Variable P : pyobj -> Prop.
Hypothesis HNone : P PNone.
Hypothesis HBool : forall b, P (PBool b).
Hypothesis HInt : forall z, P (PInt z).
Hypothesis HFloat : forall x, P (PFloat x).
Hypothesis HStr : forall s, P (PStr s).
Hypothesis HList : forall l, Forall P l -> P (PList l).
Hypothesis HDict : forall d, Forall (fun kv => P (snd kv)) d -> P (PDict d).
Hypothesis HDecimal : forall d, P (PDecimal d).
Hypothesis HDatetime : forall d, P (PDatetime d).
Hypothesis HDate : forall d, P (PDate d).
Hypothesis HTime : forall tm, P (PTime tm).
Hypothesis HAbsent : forall cls, P (PObject cls IsoAbsent).
Hypothesis HNotCallable : forall cls c, P (PObject cls (IsoNotCallable c)).
Hypothesis HRaises : forall cls e, P (PObject cls (IsoRaises e)).
Hypothesis HReturns : forall cls v, P v -> P (PObject cls (IsoReturns v)).

Fixpoint pyobj_induction (o : pyobj) : P o :=
  match o with
  | PNone => HNone
  | PBool b => HBool b
  | PInt z => HInt z
  | PFloat x => HFloat x
  | PStr s => HStr s
  | PList l =>
      HList l ((fix all (l : list pyobj) : Forall P l :=
                  match l with
                  | [] => Forall_nil P
                  | v :: l' => Forall_cons v (pyobj_induction v) (all l')
                  end) l)
  | PDict d =>
      HDict d ((fix all (d : list (str * pyobj))
                  : Forall (fun kv => P (snd kv)) d :=
                  match d with
                  | [] => Forall_nil _
                  | (k, v) :: d' =>
                      Forall_cons (k, v) (pyobj_induction v) (all d')
                  end) d)
  | PDecimal d => HDecimal d
  | PDatetime d => HDatetime d
  | PDate d => HDate d
  | PTime tm => HTime tm
  | PObject cls iso =>
      match iso with
      | IsoAbsent => HAbsent cls
      | IsoNotCallable c => HNotCallable cls c
      | IsoRaises e => HRaises cls e
      | IsoReturns v => HReturns cls v (pyobj_induction v)
      end
  end.
End PyobjInd.

(** A value reads back: after its text, followed by a delimiter, the
    scanner returns the JSON-safe form of the value and stops at the
    delimiter, provided the fuel covers the length of the text. *)
Definition reads_back (v : pyobj) : Prop :=
  forall level rest fuel,
    well_formed v = true ->
    raised (iterencode v level) = None ->
    (List.length (written (iterencode v level)) <= fuel)%nat ->
    delimited rest ->
    scan_once fuel (written (iterencode v level) ++ rest) = Some (json_safe v, rest).

(** The first character of the text of a value: not whitespace and not
    a closing bracket. *)
Definition value_start (s : text) : Prop :=
  match s with
  | c :: _ => is_ws c = false /\ code c <> 93%N
  | [] => False
  end.

(** The text of a member after the opening quote of its key. *)
Definition member_text (level : nat) (kv : str * pyobj) : text :=
  flat_map escape_code (fst kv)
    ++ quote :: key_separator ++ written (iterencode (snd kv) level).

(** The rows of a result set are well formed. *)
Definition rows_well_formed (rows : list row) : bool :=
  forallb (fun r => well_formed (PDict r)) rows.

(** A text given line by line, with ['] standing for the double quote. *)
Definition lines_of (ls : list string) : text :=
  intercalate [newline]
    (map (fun l => map (fun c => if Ascii.eqb c "'" then quote else c) (t l)) ls).

(** ** Further vocabulary: values the encoder accepts, characters it
    writes, and texts that cannot be read *)

(** A value the encoder can write: no instance without a usable
    [isoformat], at any depth. *)
Fixpoint serializable (o : pyobj) : bool :=
  match o with
  | PList l => forallb serializable l
  | PDict d => forallb (fun kv => serializable (snd kv)) d
  | PObject _ (IsoReturns v) => serializable v
  | PObject _ _ => false
  | _ => true
  end.

Definition rows_serializable (rows : list row) : bool :=
  forallb (fun r => forallb (fun kv => serializable (snd kv)) r) rows.

(** JSON-native at every depth. *)
Fixpoint all_native (o : pyobj) : bool :=
  match o with
  | PList l => forallb all_native l
  | PDict d => forallb (fun kv => all_native (snd kv)) d
  | _ => is_native o
  end.

(** A character of a JSON file in ASCII: printable, or the line break. *)
Definition printable (c : ascii) : bool :=
  ((code c =? 10) || (32 <=? code c) && (code c <=? 126))%N.

Definition plain (x : text) : Prop := Forall (fun c => printable c = true) x.

(** A character that occurs in no integer literal. *)
Definition float_mark (c : ascii) : bool :=
  negb (is_digit c) && negb (Ascii.eqb c "-").

(** The table reference of a query: project, dataset and table between
    backticks, after [FROM]. *)
Definition table_ref (project dataset table : str) : str :=
  s_ "FROM" ++ nl ++ s_ "  `" ++ project ++ s_ "." ++ dataset ++ s_ "."
    ++ table ++ s_ "`" ++ nl.

(** A clock reading within the ranges of [datetime]. *)
Definition in_range (d : datetime) : Prop :=
  (year (dt_date d) < 10000 /\ month (dt_date d) < 100 /\ day (dt_date d) < 100
   /\ hour (dt_time d) < 100 /\ minute (dt_time d) < 100
   /\ second (dt_time d) < 100 /\ microsecond (dt_time d) < 1000000)%N.

(** What the scanner reads with some fuel it reads with more. *)
Definition more_fuel (f : nat) : Prop :=
  (forall s r, scan_once f s = Some r -> scan_once (S f) s = Some r)
  /\ (forall s r, object_members f s = Some r -> object_members (S f) s = Some r)
  /\ (forall s r, array_items f s = Some r -> array_items (S f) s = Some r).

(** A text nothing can be read from, whatever the fuel. *)
Definition unreadable (x : text) : Prop := forall fuel, scan_once fuel x = None.

(** The text an encoder leaves when it raises: empty, or a text that
    starts like a value and cannot be read. *)
Definition cut_short (x : text) : Prop :=
  unreadable x /\ (x = [] \/ value_start x).

Definition leaves_fragment (v : pyobj) : Prop :=
  forall level,
    well_formed v = true -> raised (iterencode v level) <> None ->
    cut_short (written (iterencode v level)).

(** More surroundings: a client that cannot be created, a warehouse that
    answers the card query and fails on every other one, a [KeyError]
    raised by the warehouse, a row holding a value without conversion, a
    file next to the exports, and a value with nested containers. *)
Definition no_client : surroundings :=
  Surroundings with_project (fun _ => a_moment) (fun _ => Some outage)
               (fun _ => Ok []).

Definition half_outage : surroundings :=
  Surroundings with_project (fun _ => a_moment) (fun _ => None)
    (fun sql => if str_eqb sql (CARD_METRICS_QUERY my_globals)
                then Ok [scenario_row] else Raise outage).

Definition key_trouble : exn := Exn KeyError (s_ "'rows'").

Definition bytes_row : row := [(s_ "blob", some_bytes)].

Definition other_path : str := s_ "static/data/index.json".

Definition nested_value : pyobj :=
  PList [ PDecimal (Decimal false 1250 (-2));
          PDict [(s_ "day", PDate (Date 2024 1 15))] ].

(** The text of a query starts and ends with a line break; the line
    printed for it shows the text without them. *)
Definition announced (sql : str) : Prop :=
  exists body,
    sql = nl ++ (s_ "SELECT" ++ body) ++ nl
    /\ running sql = s_ "Running query:" ++ nl ++ (s_ "SELECT" ++ body) ++ nl.

(** * Properties *)

Arguments s_ : simpl never.
Arguments json_dump : simpl never.
Arguments CARD_METRICS_QUERY : simpl never.
Arguments SET_METRICS_QUERY : simpl never.
Arguments strip : simpl never.

(** ** Runs of the script *)

Lemma run_query_run E c sql w :
  run_query E c sql w =
  let w1 := World (files w) (stdout w ++ [running sql]) (stderr w)
                  (events w ++ [EQuery sql]) (ticks w) in
  match warehouse E sql with
  | Ok rows => (Ok (map py_dict rows), w1)
  | Raise e => (Raise e, w1)
  end.
Proof.
  unfold run_query, bind, print, query_result, log, running; simpl.
  destruct (warehouse E sql); reflexivity.
Qed.

Lemma write_json_run now rows f w :
  write_json (envelope now rows) f w =
  let out := json_dump (PDict (envelope now rows)) in
  let path := OUTPUT_DIR ++ s_ "/" ++ f in
  let fs' := fun p => if str_eqb p path then Some (written out) else files w p in
  match raised out with
  | None =>
      (Ok tt, World fs' (stdout w ++ [written_line (len rows) path]) (stderr w)
                    (events w ++ [EWrite path true]) (ticks w))
  | Some e =>
      (Raise e, World fs' (stdout w) (stderr w)
                      (events w ++ [EWrite path false]) (ticks w))
  end.
Proof.
  unfold write_json, bind, dump_to_file, set_file, getitem, print, written_line.
  cbv zeta.
  destruct (raised (json_dump (PDict (envelope now rows)))); reflexivity.
Qed.

Lemma main_run E G fs :
  main E G (start fs) =
  let ev0 := [EConnect (PROJECT_ID G)] in
  match connect E (PROJECT_ID G) with
  | Some e => (Raise e, World fs [] [] ev0 0)
  | None =>
      let now := reading E 0 in
      let q1 := CARD_METRICS_QUERY G in
      let q2 := SET_METRICS_QUERY G in
      let ev1 := [EConnect (PROJECT_ID G); ENow; EQuery q1] in
      match warehouse E q1 with
      | Raise e => (Raise e, World fs [running q1] [] ev1 1)
      | Ok rows1 =>
          let out1 := json_dump (PDict (envelope now (map py_dict rows1))) in
          let p1 := job_path CardMetrics in
          let fs1 := fun p => if str_eqb p p1 then Some (written out1) else fs p in
          match raised out1 with
          | Some e =>
              (Raise e, World fs1 [running q1] [] (ev1 ++ [EWrite p1 false]) 1)
          | None =>
              let so1 := [running q1; written_line (len (map py_dict rows1)) p1] in
              let ev2 := ev1 ++ [EWrite p1 true; EQuery q2] in
              match warehouse E q2 with
              | Raise e => (Raise e, World fs1 (so1 ++ [running q2]) [] ev2 1)
              | Ok rows2 =>
                  let out2 :=
                    json_dump (PDict (envelope now (map py_dict rows2))) in
                  let p2 := job_path SetMetrics in
                  let fs2 :=
                    fun p => if str_eqb p p2 then Some (written out2) else fs1 p in
                  match raised out2 with
                  | Some e =>
                      (Raise e, World fs2 (so1 ++ [running q2]) []
                                      (ev2 ++ [EWrite p2 false]) 1)
                  | None =>
                      (Ok tt,
                       World fs2
                         (so1 ++ [running q2;
                                  written_line (len (map py_dict rows2)) p2;
                                  s_ "Done."])
                         [] (ev2 ++ [EWrite p2 true]) 1)
                  end
              end
          end
      end
  end.
Proof.
  unfold main, bigquery_Client, datetime_now_utc, start, reading, job_path.
  cbv zeta.
  unfold bind at 1 2. unfold log at 1. cbn [files stdout stderr events ticks app].
  destruct (connect E (PROJECT_ID G)) as [e|]; [reflexivity|].
  unfold ret at 1. unfold bind at 1 2.
  cbn [files stdout stderr events ticks app dt_date dt_time].
  rewrite run_query_run.
  cbn [files stdout stderr events ticks app].
  destruct (warehouse E (CARD_METRICS_QUERY G)) as [rows1|e]; [|reflexivity].
  unfold bind at 1. rewrite write_json_run.
  cbn [files stdout stderr events ticks app].
  match goal with
  | |- context [raised (json_dump ?p)] => destruct (raised (json_dump p))
  end; [reflexivity|].
  unfold bind at 1. rewrite run_query_run.
  cbn [files stdout stderr events ticks app].
  destruct (warehouse E (SET_METRICS_QUERY G)) as [rows2|e]; [|reflexivity].
  unfold bind at 1. rewrite write_json_run.
  cbn [files stdout stderr events ticks app].
  match goal with
  | |- context [raised (json_dump (PDict (envelope _ (map py_dict rows2))))] =>
      destruct (raised (json_dump (PDict (envelope
        (str_of_text
           (datetime_isoformat
              (Datetime (dt_date (clock E 0))
                 (Time (hour (dt_time (clock E 0))) (minute (dt_time (clock E 0)))
                    (second (dt_time (clock E 0)))
                    (microsecond (dt_time (clock E 0))) (Some 0)))))
        (map py_dict rows2)))))
  end; reflexivity.
Qed.

Lemma queries_differ G : CARD_METRICS_QUERY G <> SET_METRICS_QUERY G.
Proof.
  unfold CARD_METRICS_QUERY, SET_METRICS_QUERY. intro H.
  apply (f_equal (fun l => nth 29 l 0%N)) in H. vm_compute in H. discriminate.
Qed.

Lemma paths_differ : str_eqb (job_path CardMetrics) (job_path SetMetrics) = false.
Proof. reflexivity. Qed.

Lemma str_eqb_refl s : str_eqb s s = true.
Proof. induction s; simpl; [reflexivity|]. now rewrite N.eqb_refl. Qed.

Lemma str_eqb_eq a b : str_eqb a b = true <-> a = b.
Proof.
  revert b; induction a as [|x a IH]; intros [|y b]; simpl; split; intro H;
    try discriminate; try reflexivity.
  - apply andb_true_iff in H as [H1 H2]. apply N.eqb_eq in H1.
    apply IH in H2. now subst.
  - injection H as -> ->. now rewrite N.eqb_refl, str_eqb_refl.
Qed.

(** C3.  When [GCP_PROJECT_ID] is absent the run never begins: the client
    is not created, the clock is not read, no query is sent and no file
    is touched; the process exits with status 1 and the last line on the
    error stream names the missing variable. *)
Theorem missing_project_id_aborts (E : surroundings) (w : world) :
  environ_get (environ E) (s_ "GCP_PROJECT_ID") = None ->
  let o := script E w in
  exit_code o = 1 /\ exit_code o <> 0
  /\ files (final o) = files w
  /\ events (final o) = events w
  /\ ticks (final o) = ticks w
  /\ stdout (final o) = stdout w
  /\ stderr (final o) =
       stderr w ++ [s_ "Traceback (most recent call last):";
                    s_ "KeyError: 'GCP_PROJECT_ID'"]
  /\ names (s_ "KeyError: 'GCP_PROJECT_ID'") (s_ "GCP_PROJECT_ID").
Proof.
  intros H o. subst o. unfold script, load_globals. rewrite H.
  unfold uncaught, eprint; cbn [exit_code final files events ticks stdout stderr exn_cls exn_str].
  repeat split; try discriminate.
  - now rewrite <- app_assoc.
  - exists (s_ "KeyError: '"), (s_ "'"). reflexivity.
Qed.


Lemma unique_split {A} (x : A) l1 l2 pre post :
  l1 ++ x :: l2 = pre ++ x :: post -> ~ In x l1 -> ~ In x l2 -> pre = l1.
Proof.
  revert pre; induction l1 as [|a l1 IH]; intros [|b pre] H N1 N2; simpl in *.
  - reflexivity.
  - injection H as <- H. exfalso. apply N2. rewrite H. apply in_elt.
  - injection H as -> H. exfalso. apply N1. now left.
  - injection H as <- H. f_equal. apply IH; auto.
Qed.

(** Every way a run of the script can go, once the module has loaded. *)
Ltac run_cases E G :=
  unfold script;
  match goal with H : load_globals E = Ok G |- _ => rewrite H end;
  rewrite main_run; cbv zeta;
  destruct (connect E (PROJECT_ID G)) as [?e|] eqn:?Hconnect;
  [| destruct (warehouse E (CARD_METRICS_QUERY G)) as [?rows1|?e] eqn:?Hq1;
     [ match goal with
       | |- context [raised (json_dump ?p)] =>
           destruct (raised (json_dump p)) as [?e|] eqn:?Hdump1
       end;
       [| destruct (warehouse E (SET_METRICS_QUERY G)) as [?rows2|?e] eqn:?Hq2;
          [ match goal with
            | |- context [raised (json_dump (PDict (envelope ?n (map py_dict rows2))))] =>
                destruct (raised (json_dump (PDict (envelope n (map py_dict rows2)))))
                  as [?e|] eqn:?Hdump2
            end |] ] |] ].

Ltac finish_run :=
  repeat match goal with
  | |- context [is_KeyError ?e] => destruct (is_KeyError e)
  end;
  unfold uncaught, eprint;
  cbn [exit_code final files events ticks stdout stderr app].

Lemma split_events (a b c d x : event) l pre post :
  [a; b; c; d] ++ x :: l = pre ++ x :: post ->
  a <> x -> b <> x -> c <> x -> d <> x -> ~ In x l -> pre = [a; b; c; d].
Proof.
  intros H Ha Hb Hc Hd Hl. apply (unique_split x _ l pre post H); auto.
  simpl. intuition.
Qed.

Lemma EQuery_inj a b : EQuery a = EQuery b -> a = b.
Proof. now intros [= ->]. Qed.

Ltac no_such_event :=
  repeat match goal with
  | H : _ \/ _ |- _ => destruct H as [H|H]
  | H : False |- _ => destruct H
  | H : EQuery _ = EQuery _ |- _ =>
      apply EQuery_inj in H; first [congruence | fail 2]
  | H : _ = _ :> event |- _ => discriminate H
  end.

(** C4.  A failure of the first query ends the run with a non-zero exit:
    no file is touched and the second query is never sent.  In every run,
    whatever happens, the second query is only sent after the first file
    has been written completely and closed. *)
Theorem first_query_failure_aborts (E : surroundings) (G : globals)
    (fs : str -> option text) :
  load_globals E = Ok G ->
  let o := script E (start fs) in
  (forall e,
      connect E (PROJECT_ID G) = None ->
      warehouse E (CARD_METRICS_QUERY G) = Raise e ->
      exit_code o = 1 /\ exit_code o <> 0
      /\ files (final o) = fs
      /\ events (final o) =
           [EConnect (PROJECT_ID G); ENow; EQuery (CARD_METRICS_QUERY G)]
      /\ ~ In (EQuery (SET_METRICS_QUERY G)) (events (final o))
      /\ (forall p c, ~ In (EWrite p c) (events (final o))))
  /\ (forall pre post,
         events (final o) = pre ++ EQuery (SET_METRICS_QUERY G) :: post ->
         pre = [EConnect (PROJECT_ID G); ENow; EQuery (CARD_METRICS_QUERY G);
                EWrite (job_path CardMetrics) true]).
Proof.
  intros HG o. subst o. pose proof (queries_differ G) as Hne. split.
  - intros e Hc Hq. run_cases E G; try congruence.
    finish_run; repeat split; try discriminate;
      try (intros p c Hx; cbn [In] in Hx; no_such_event);
      intro Hx; cbn [In] in Hx; no_such_event.
  - intros pre post.
    assert (Hin : forall l, l = pre ++ EQuery (SET_METRICS_QUERY G) :: post ->
                            In (EQuery (SET_METRICS_QUERY G)) l)
      by (intros l ->; apply in_elt).
    run_cases E G; finish_run; intro H.
    all: first
      [ apply (split_events _ _ _ _ _ _ _ _ H);
        try discriminate; try congruence; cbn [In]; intro Hx; no_such_event
      | apply Hin in H; cbn [In] in H; no_such_event ].
Qed.

(** ** The encoder's output *)

Lemma yield_then x b :
  yield x >> b = Out (x ++ written b) (raised b).
Proof. reflexivity. Qed.

Lemma written_then a b :
  raised a = None -> written (a >> b) = written a ++ written b.
Proof. destruct a as [w [e|]]; simpl; [discriminate|reflexivity]. Qed.

Lemma raised_then a b :
  raised (a >> b) = match raised a with Some e => Some e | None => raised b end.
Proof. destruct a as [w [e|]]; reflexivity. Qed.

Lemma raised_then_none a b :
  raised (a >> b) = None <-> raised a = None /\ raised b = None.
Proof.
  rewrite raised_then. destruct (raised a); split; intros; intuition congruence.
Qed.

Lemma then_assoc a b c : (a >> b) >> c = a >> (b >> c).
Proof.
  unfold andthen. destruct a as [wa [ea|]]; simpl; [reflexivity|].
  destruct b as [wb [eb|]]; simpl; [reflexivity|]. now rewrite app_assoc.
Qed.

Lemma ok_is_yield a : raised a = None -> a = yield (written a).
Proof. destruct a as [w r]; simpl. now intros ->. Qed.

(** A dictionary of three members, the first two of them scalars. *)
Lemma iterencode_envelope now n v :
  iterencode (PDict [(s_ "last_updated", PStr now);
                     (s_ "record_count", PInt n); (s_ "data", v)]) 0 =
  yield (envelope_head now n) >> iterencode v 1 >> yield envelope_tail.
Proof.
  cbn [iterencode map join]. unfold envelope_head, timestamp_line, envelope_tail.
  destruct (iterencode v 1) as [wv [e|]]; unfold yield, andthen;
    cbn [written raised]; f_equal; cbn [app];
    repeat (rewrite <- ?app_assoc; cbn [app]); reflexivity.
Qed.

Lemma json_dump_envelope now rows :
  json_dump (PDict (envelope now rows)) =
  yield (envelope_head now (len rows))
    >> iterencode (PList (map PDict rows)) 1 >> yield envelope_tail.
Proof. apply iterencode_envelope. Qed.

Lemma join_ok sep outs :
  Forall (fun o => raised o = None) outs ->
  join sep outs = yield (intercalate sep (map written outs)).
Proof.
  induction 1 as [|o outs Ho Houts IH]; [reflexivity|].
  destruct outs as [|o' outs]; [now apply ok_is_yield|].
  change (join sep (o :: o' :: outs)) with (o >> yield sep >> join sep (o' :: outs)).
  rewrite IH, (ok_is_yield o Ho). reflexivity.
Qed.

Lemma join_raised_none sep outs :
  raised (join sep outs) = None -> Forall (fun o => raised o = None) outs.
Proof.
  induction outs as [|o outs IH]; intro H; [constructor|].
  destruct outs as [|o' outs]; [now repeat constructor|].
  change (join sep (o :: o' :: outs)) with (o >> yield sep >> join sep (o' :: outs)) in H.
  apply raised_then_none in H as [Ho H]. apply raised_then_none in H as [_ H].
  constructor; auto.
Qed.

Lemma join_raised_in sep outs o :
  In o outs -> raised o <> None -> raised (join sep outs) <> None.
Proof.
  intros Hin Ho H. apply join_raised_none in H.
  rewrite Forall_forall in H. auto.
Qed.

Lemma iterencode_list l level :
  iterencode (PList l) level =
  match l with
  | [] => yield (t "[]")
  | _ =>
      yield ("["%char :: newline_indent (S level)) >>
      join (item_separator ++ newline_indent (S level))
           (map (fun v => iterencode v (S level)) l) >>
      yield (newline_indent level ++ t "]")
  end.
Proof. destruct l; reflexivity. Qed.

Lemma iterencode_dict d level :
  iterencode (PDict d) level =
  match d with
  | [] => yield (t "{}")
  | _ =>
      yield ("{"%char :: newline_indent (S level)) >>
      join (item_separator ++ newline_indent (S level))
           (map (fun kv =>
                   yield (encode_basestring_ascii (fst kv) ++ key_separator) >>
                   iterencode (snd kv) (S level)) d) >>
      yield (newline_indent level ++ t "}")
  end.
Proof.
  destruct d as [|[k v] d]; [reflexivity|]. cbn [iterencode].
  f_equal. f_equal. f_equal. apply map_ext. now intros [k' v'].
Qed.

(** An array is written when all its items are, and then holds their
    texts in order. *)
Lemma iterencode_list_ok l level :
  raised (iterencode (PList l) level) = None ->
  Forall (fun o => raised o = None) (map (fun v => iterencode v (S level)) l)
  /\ iterencode (PList l) level =
     yield (array_text level (map written (map (fun v => iterencode v (S level)) l))).
Proof.
  rewrite iterencode_list. destruct l as [|v l].
  { intros _. split; [constructor|reflexivity]. }
  set (outs := map _ (v :: l)). intro H.
  apply raised_then_none in H as [_ H]. apply raised_then_none in H as [H _].
  apply join_raised_none in H. split; [assumption|].
  rewrite (join_ok _ _ H). unfold array_text.
  destruct (map written outs) eqn:Hm; [discriminate Hm|]. rewrite <- Hm.
  unfold yield, andthen; cbn [written raised]. f_equal.
Qed.

Lemma EWrite_inj p c p' c' : EWrite p c = EWrite p' c' -> p = p' /\ c = c'.
Proof. now intros [= -> ->]. Qed.

Lemma job_paths_differ : job_path CardMetrics <> job_path SetMetrics.
Proof.
  intro H. pose proof paths_differ as D. rewrite H, str_eqb_refl in D.
  discriminate D.
Qed.

(** Resolves a hypothesis [In ev events] against the events of a run. *)
Ltac which_event H :=
  cbn [In app] in H;
  repeat match type of H with
  | _ \/ _ => destruct H as [H|H]
  end;
  try contradiction;
  try match type of H with
  | EQuery _ = EQuery _ => apply EQuery_inj in H
  | EWrite _ _ = EWrite _ _ =>
      let Hp := fresh "Hp" in let Hc := fresh "Hc" in
      apply EWrite_inj in H; destruct H as [Hp Hc];
      first [ discriminate Hc
            | exfalso; apply job_paths_differ; first [exact Hp | exact (eq_sym Hp)]
            | idtac ]
  | _ = _ :> event => discriminate H
  end.

Lemma paths_differ' : str_eqb (job_path SetMetrics) (job_path CardMetrics) = false.
Proof. reflexivity. Qed.

Lemma envelope_payload now (rows : list row) :
  PDict (envelope now (map py_dict rows)) =
  PDict [(s_ "last_updated", PStr now);
         (s_ "record_count", PInt (Z.of_nat (List.length rows)));
         (s_ "data", PList (map PDict (map py_dict rows)))].
Proof. unfold envelope, len. now rewrite length_map. Qed.

Ltac same_rows :=
  cbn [job_query] in *;
  repeat match goal with
  | H1 : warehouse ?E ?q = _, H2 : warehouse ?E ?q = _ |- _ =>
      rewrite H1 in H2; first [discriminate H2 | injection H2 as H2; subst]
  end.

Ltac simpl_files :=
  cbv beta; cbn [job_path];
  fold (job_path CardMetrics); fold (job_path SetMetrics);
  rewrite ?str_eqb_refl, ?paths_differ, ?paths_differ'.

Ltac in_events :=
  cbn [In app]; repeat first [ left; reflexivity | right ].

Lemma empty_envelope now :
  json_dump (PDict (envelope now [])) =
  yield (envelope_head now 0 ++ t "[]" ++ envelope_tail).
Proof.
  rewrite json_dump_envelope. cbn [map iterencode len List.length Z.of_nat].
  unfold yield, andthen; cbn [written raised]. reflexivity.
Qed.


Lemma before_first_query (x y z : event) l pre post :
  x :: y :: l = pre ++ z :: post -> x <> z -> y <> z -> In y pre.
Proof.
  intros H Hx Hy. destruct pre as [|a [|b pre]]; cbn [app] in H.
  - injection H as H _. contradiction.
  - injection H as _ H _. contradiction.
  - injection H as _ H _. subst. right. now left.
Qed.

Lemma head_of_envelope now rows :
  exists body,
    written (json_dump (PDict (envelope now rows))) = timestamp_line now ++ body.
Proof.
  rewrite json_dump_envelope, yield_then. cbn [written].
  unfold envelope_head. rewrite <- !app_assoc. eauto.
Qed.

(** C5.  The clock is read once in a run, before any query is sent, and
    every envelope written in the run carries that one reading: the
    files written begin with the same [last_updated] line, byte for
    byte. *)
Theorem one_timestamp_per_run (E : surroundings) (G : globals)
    (fs : str -> option text) :
  load_globals E = Ok G ->
  let o := script E (start fs) in
  let now := reading E 0 in
  (ticks (final o) <= 1)%nat
  /\ (forall pre sql post,
         events (final o) = pre ++ EQuery sql :: post ->
         In ENow pre /\ ticks (final o) = 1%nat)
  /\ (forall j,
         In (EWrite (job_path j) true) (events (final o)) ->
         exists rows body,
           files (final o) (job_path j) =
             Some (written (json_dump (PDict (envelope now rows))))
           /\ dict_get (envelope now rows) (s_ "last_updated") = Some (PStr now)
           /\ written (json_dump (PDict (envelope now rows))) =
                timestamp_line now ++ body).
Proof.
  intros HG o now. subst o now. split; [|split].
  - run_cases E G; finish_run; lia.
  - intros pre sql post.
    run_cases E G; finish_run; cbn [app]; intro H.
    all: try (split; [|reflexivity];
              apply (before_first_query _ _ _ _ _ _ H); discriminate).
    all: destruct pre as [|a [|b pre]]; discriminate H.
  - intros j. destruct j; run_cases E G; finish_run; intro H.
    all: try solve [which_event H].
    all: simpl_files.
    all: match goal with
         | |- context [envelope ?n ?r] =>
             destruct (head_of_envelope n r) as [body Hb];
             exists r, body; split; [reflexivity|split; [reflexivity|exact Hb]]
         end.
Qed.

Lemma envelope_text now rows :
  raised (json_dump (PDict (envelope now rows))) = None ->
  let items := map (fun v => iterencode v 2) (map PDict rows) in
  Forall (fun o => raised o = None) items
  /\ written (json_dump (PDict (envelope now rows))) =
       envelope_head now (len rows) ++ array_text 1 (map written items)
         ++ envelope_tail.
Proof.
  rewrite json_dump_envelope. intros H items.
  apply raised_then_none in H as [_ H]. apply raised_then_none in H as [H _].
  apply iterencode_list_ok in H as [Hall Heq]. split; [exact Hall|].
  rewrite Heq. reflexivity.
Qed.

(** C7.  The [data] array of a written file holds the rows in the order
    the warehouse returned them: the envelope's list is the list of the
    returned rows, each turned into a dictionary, and the text of the
    array is the texts of these dictionaries one after the other. *)
Theorem rows_keep_warehouse_order (E : surroundings) (G : globals)
    (fs : str -> option text) (j : job) (rows : list row) :
  load_globals E = Ok G ->
  warehouse E (job_query G j) = Ok rows ->
  let o := script E (start fs) in
  In (EWrite (job_path j) true) (events (final o)) ->
  let data := map (fun r => PDict (py_dict r)) rows in
  let items := map (fun v => iterencode v 2) data in
  (forall i r, nth_error rows i = Some r ->
               nth_error data i = Some (PDict (py_dict r)))
  /\ files (final o) (job_path j) =
       Some (written (json_dump (PDict (envelope (reading E 0)
                                          (map py_dict rows)))))
  /\ dict_get (envelope (reading E 0) (map py_dict rows)) (s_ "data") =
       Some (PList data)
  /\ Forall (fun x => raised x = None) items
  /\ files (final o) (job_path j) =
       Some (envelope_head (reading E 0) (len rows)
               ++ array_text 1 (map written items) ++ envelope_tail).
Proof.
  intros HG Hrows o Hw data items. subst o data items.
  split; [intros i r Hi; exact (map_nth_error (fun r => PDict (py_dict r)) i rows Hi)|].
  assert (Hmap : map (fun r => PDict (py_dict r)) rows = map PDict (map py_dict rows))
    by now rewrite map_map.
  rewrite Hmap.
  assert (Hlen : len rows = len (map py_dict rows))
    by (unfold len; now rewrite length_map).
  rewrite Hlen. clear Hmap Hlen.
  revert Hw.
  destruct j; run_cases E G; finish_run; intro Hw; same_rows.
  all: try solve [which_event Hw].
  all: simpl_files.
  all: match goal with
       | Hd : raised (json_dump (PDict (envelope ?n (map py_dict ?r)))) = None
         |- context [Some (written (json_dump (PDict (envelope ?n (map py_dict ?r)))))] =>
           destruct (envelope_text n (map py_dict r) Hd) as [Hall Htext];
           rewrite Htext; repeat split; assumption
       end.
Qed.


(** ** The statements on concrete runs *)

Lemma missing_project_id_aborts_witness :
  exit_code (script (mock [] (Ok [])) (start no_files)) = 1.
Proof.
  exact (proj1 (missing_project_id_aborts (mock [] (Ok [])) (start no_files)
                  eq_refl)).
Defined.

Lemma first_query_failure_aborts_witness :
  exit_code (script (mock with_project (Raise outage)) (start no_files)) = 1.
Proof.
  exact (proj1 (proj1 (first_query_failure_aborts
                         (mock with_project (Raise outage)) my_globals no_files
                         eq_refl)
                  outage eq_refl eq_refl)).
Defined.


Lemma one_timestamp_per_run_witness :
  (ticks (final (script (mock with_project (Ok [scenario_row]))
                   (start no_files))) <= 1)%nat.
Proof.
  exact (proj1 (one_timestamp_per_run (mock with_project (Ok [scenario_row]))
                  my_globals no_files eq_refl)).
Defined.

Lemma rows_keep_warehouse_order_witness :
  nth_error (map (fun r => PDict (py_dict r)) [scenario_row; []]) 1 =
    Some (PDict (py_dict [])).
Proof.
  assert (H : In (EWrite (job_path CardMetrics) true)
                 (events (final (script (mock with_project (Ok [scenario_row; []]))
                                   (start no_files)))))
    by (vm_compute; tauto).
  exact (proj1 (rows_keep_warehouse_order
                  (mock with_project (Ok [scenario_row; []])) my_globals
                  no_files CardMetrics [scenario_row; []] eq_refl eq_refl H)
               1%nat [] eq_refl).
Defined.


(** ** What [default] converts and what it rejects *)

(** The encoder continues with [default(o)] on every value that is not
    JSON-native, as [_iterencode] does. *)
Lemma iterencode_default o level :
  is_native o = false ->
  iterencode o level =
  match default o with
  | Ok o' => iterencode o' level
  | Raise e => throw e
  end.
Proof.
  destruct o as [| | | | | | | | | | |cls iso]; try discriminate; intros _;
    try reflexivity.
  destruct iso; reflexivity.
Qed.

(** C9, counterexample.  An attribute named [isoformat] is not always a
    method that returns a string: [odd_object] has the attribute, and the
    encoder raises [TypeError] on it; a run that meets it in a row
    aborts. *)
Lemma isoformat_attribute_is_not_enough :
  is_native odd_object = false
  /\ isinstance_Decimal odd_object = false
  /\ isinstance_datetime odd_object = false
  /\ hasattr_isoformat odd_object = true
  /\ raised (json_dump odd_object) = Some (not_callable (s_ "int"))
  /\ exit_code (script (mock with_project (Ok [[(s_ "when", odd_object)]]))
                  (start no_files)) = 1.
Proof. repeat apply conj; vm_compute; reflexivity. Qed.

(** C9, as amended.  A value that is neither JSON-native, nor a [Decimal],
    nor a [datetime], and whose [isoformat()] returns a string, is
    written as that string, whatever its class; no exception is raised. *)
Theorem isoformat_string_is_written (o : pyobj) (s : str) (level : nat) :
  is_native o = false ->
  isinstance_Decimal o = false ->
  isinstance_datetime o = false ->
  hasattr_isoformat o = true ->
  call_isoformat o = Ok (PStr s) ->
  default o = Ok (PStr s)
  /\ iterencode o level = yield (encode_basestring_ascii s)
  /\ raised (iterencode o level) = None.
Proof.
  intros Hn Hd Hdt Hh Hc.
  assert (Hdef : default o = Ok (PStr s))
    by (unfold default; now rewrite Hd, Hdt, Hh).
  split; [exact Hdef|].
  rewrite (iterencode_default o level Hn), Hdef. split; reflexivity.
Qed.

Lemma isoformat_string_is_written_witness :
  iterencode money 3 = yield (encode_basestring_ascii (s_ "12 EUR")).
Proof.
  exact (proj1 (proj2 (isoformat_string_is_written money (s_ "12 EUR") 3
                         eq_refl eq_refl eq_refl eq_refl eq_refl))).
Defined.

(** A value on which the encoder raises makes the whole envelope fail. *)
Lemma envelope_fails now (rows : list dict) r k v :
  In r rows -> In (k, v) r ->
  raised (iterencode v 3) <> None ->
  raised (json_dump (PDict (envelope now rows))) <> None.
Proof.
  intros Hr Hkv Hv H. rewrite json_dump_envelope in H.
  apply raised_then_none in H as [_ H]. apply raised_then_none in H as [H _].
  apply iterencode_list_ok in H as [H _]. rewrite Forall_forall in H.
  specialize (H (iterencode (PDict r) 2)).
  assert (Hin : In (iterencode (PDict r) 2)
                   (map (fun v => iterencode v 2) (map PDict rows)))
    by (rewrite map_map; apply in_map_iff; eauto).
  specialize (H Hin). rewrite iterencode_dict in H.
  destruct r as [|kv r']; [contradiction|].
  apply raised_then_none in H as [_ H]. apply raised_then_none in H as [H _].
  apply join_raised_none in H. rewrite Forall_forall in H.
  specialize (H (yield (encode_basestring_ascii k ++ key_separator) >>
                 iterencode v 3)).
  assert (Hin' : In (yield (encode_basestring_ascii k ++ key_separator) >>
                     iterencode v 3)
                    (map (fun kv0 =>
                            yield (encode_basestring_ascii (fst kv0) ++ key_separator) >>
                            iterencode (snd kv0) 3) (kv :: r')))
    by (apply in_map_iff; exists (k, v); split; [reflexivity|assumption]).
  specialize (H Hin'). apply raised_then_none in H as [_ H]. contradiction.
Qed.




(** ** Characters and digits *)

Lemma code_ascii_of_N n : (n < 256)%N -> code (ascii_of_N n) = n.
Proof. intro H. unfold code. now apply N_ascii_embedding. Qed.

Lemma code_lt_256 c : (code c < 256)%N.
Proof. apply N_ascii_bounded. Qed.

Lemma code_inj a b : code a = code b -> a = b.
Proof.
  unfold code. intro H.
  rewrite <- (ascii_N_embedding a), <- (ascii_N_embedding b). now rewrite H.
Qed.

Lemma code_digit_char d : (d < 10)%N -> code (digit_char d) = (48 + d)%N.
Proof. intro H. unfold digit_char. apply code_ascii_of_N. lia. Qed.

Lemma is_digit_digit_char d : (d < 10)%N -> is_digit (digit_char d) = true.
Proof.
  intro H. unfold is_digit. rewrite code_digit_char by assumption.
  apply andb_true_iff; split; apply N.leb_le; lia.
Qed.

Lemma digit_val_digit_char d : (d < 10)%N -> digit_val (digit_char d) = d.
Proof. intro H. unfold digit_val. rewrite code_digit_char by assumption. lia. Qed.

Lemma digits_value_app ds r a :
  digits_value (ds ++ r) a = digits_value r (digits_value ds a).
Proof. revert a; induction ds as [|c ds IH]; intro a; simpl; auto. Qed.


Lemma digits_fuel_spec fuel n acc :
  (0 < fuel)%nat -> (n < 2 ^ N.of_nat fuel)%N ->
  exists ds, digits_fuel fuel n acc = ds ++ acc /\ digits_of n ds.
Proof.
  revert n acc; induction fuel as [|fuel IH]; intros n acc Hpos Hlt; [lia|].
  cbn [digits_fuel]. destruct (N.ltb_spec n 10) as [Hn|Hn].
  - exists [digit_char (n mod 10)]. split; [reflexivity|].
    rewrite N.mod_small by assumption.
    split; [|split; [|split]].
    + discriminate.
    + cbn. now rewrite is_digit_digit_char.
    + intro a. cbn [digits_value List.length].
      rewrite digit_val_digit_char by assumption.
      change (10 ^ N.of_nat 1)%N with 10%N. lia.
    + intro H. rewrite code_digit_char in H by assumption.
      split; [lia|reflexivity].
  - assert (Hf : (0 < fuel)%nat).
    { destruct fuel; [|lia]. cbn in Hlt. lia. }
    assert (Hq : (n / 10 < 2 ^ N.of_nat fuel)%N).
    { apply N.Div0.div_lt_upper_bound.
      rewrite Nat2N.inj_succ, N.pow_succ_r' in Hlt. lia. }
    destruct (IH (n / 10)%N (digit_char (n mod 10) :: acc) Hf Hq)
      as (ds & Heq & Hne & Hall & Hval & Hhead).
    exists (ds ++ [digit_char (n mod 10)]). split.
    { rewrite Heq, <- app_assoc. reflexivity. }
    assert (Hm : (n mod 10 < 10)%N) by (apply N.mod_lt; lia).
    split; [|split; [|split]].
    + destruct ds; discriminate.
    + rewrite forallb_app, Hall. cbn. now rewrite is_digit_digit_char.
    + intro a. rewrite digits_value_app, Hval. cbn [digits_value].
      rewrite digit_val_digit_char by assumption.
      rewrite length_app, Nat2N.inj_add. cbn [List.length N.of_nat].
      rewrite N.pow_add_r. change (10 ^ N.of_nat 1)%N with 10%N.
      pose proof (N.div_mod n 10 ltac:(lia)) as Hd. lia.
    + destruct ds as [|c r]; [contradiction|]. cbn [app]. intro Hc.
      destruct (Hhead Hc) as [H0 _].
      assert (n / 10 <> 0)%N
        by (intro Hz; apply N.div_small_iff in Hz; lia).
      contradiction.
Qed.

Lemma N_digits_spec n : digits_of n (N_digits n).
Proof.
  unfold N_digits.
  destruct (digits_fuel_spec (S (N.to_nat (N.log2 n))) n []) as (ds & Heq & H).
  - lia.
  - rewrite Nat2N.inj_succ, N2Nat.id.
    destruct n as [|p]; [reflexivity|]. apply N.log2_spec. lia.
  - rewrite Heq, app_nil_r. exact H.
Qed.

(** ** Reading numbers back *)

Lemma delimited_not_digit c r : delimited (c :: r) -> is_digit c = false.
Proof. intros [->| ->]; reflexivity. Qed.

Lemma span_digits_app s ds r rest :
  delimited rest ->
  span_digits s = (ds, r) -> span_digits (s ++ rest) = (ds, r ++ rest).
Proof.
  intro Hd. revert ds r; induction s as [|c s IH]; intros ds r H.
  - injection H as <- <-. cbn [app]. destruct rest as [|c rest]; [reflexivity|].
    cbn [span_digits]. now rewrite (delimited_not_digit _ _ Hd).
  - cbn [app span_digits] in *. destruct (is_digit c).
    + destruct (span_digits s) as [ds' r'] eqn:E. injection H as <- <-.
      now rewrite (IH ds' r' eq_refl).
    + now injection H as <- <-.
Qed.

Lemma span_digits_all ds :
  forallb is_digit ds = true -> span_digits ds = (ds, []).
Proof.
  induction ds as [|c ds IH]; [reflexivity|]. cbn. intro H.
  apply andb_true_iff in H as [Hc H]. now rewrite Hc, (IH H).
Qed.

Lemma scan_int_part_app s ip r rest :
  delimited rest ->
  scan_int_part s = Some (ip, r) ->
  scan_int_part (s ++ rest) = Some (ip, r ++ rest).
Proof.
  intros Hd H. destruct s as [|c s]; [discriminate|].
  cbn [app scan_int_part] in *. destruct (code c =? 48)%N.
  - now injection H as <- <-.
  - destruct (is_digit c); [|discriminate].
    destruct (span_digits s) as [ds r'] eqn:E. injection H as <- <-.
    now rewrite (span_digits_app _ _ _ _ Hd E).
Qed.

Lemma scan_frac_app s fr r rest :
  delimited rest ->
  scan_frac s = (fr, r) -> scan_frac (s ++ rest) = (fr, r ++ rest).
Proof.
  intros Hd H. destruct s as [|p [|c s]].
  - injection H as <- <-. cbn [app].
    destruct rest as [|c [|c' rest]]; try reflexivity.
    destruct Hd as [->| ->]; reflexivity.
  - injection H as <- <-. cbn [app]. destruct rest as [|c rest]; [reflexivity|].
    cbn [scan_frac]. now rewrite (delimited_not_digit _ _ Hd), andb_false_r.
  - cbn [app scan_frac] in *. destruct ((code p =? 46)%N && is_digit c).
    + destruct (span_digits s) as [ds r'] eqn:E. injection H as <- <-.
      now rewrite (span_digits_app _ _ _ _ Hd E).
    + now injection H as <- <-.
Qed.

Lemma scan_exp_app s ex r rest :
  delimited rest ->
  scan_exp s = (ex, r) -> scan_exp (s ++ rest) = (ex, r ++ rest).
Proof.
  intros Hd H. destruct s as [|e s].
  - injection H as <- <-. cbn [app].
    destruct rest as [|c rest]; [reflexivity|].
    destruct Hd as [->| ->]; reflexivity.
  - cbn [app scan_exp] in *.
    destruct ((code e =? 101)%N || (code e =? 69)%N); [|now injection H as <- <-].
    destruct s as [|c s].
    + injection H as <- <-. cbn [app].
      destruct rest as [|c rest]; [reflexivity|].
      destruct Hd as [->| ->]; reflexivity.
    + cbn [app]. destruct (is_digit c).
      * destruct (span_digits s) as [ds r'] eqn:E. injection H as <- <-.
        now rewrite (span_digits_app _ _ _ _ Hd E).
      * destruct ((code c =? 43)%N || (code c =? 45)%N);
          [|now injection H as <- <-].
        destruct s as [|c1 s].
        -- injection H as <- <-. cbn [app].
           destruct rest as [|c1 rest]; [reflexivity|].
           now rewrite (delimited_not_digit _ _ Hd).
        -- cbn [app]. destruct (is_digit c1); [|now injection H as <- <-].
           destruct (span_digits s) as [ds r'] eqn:E. injection H as <- <-.
           now rewrite (span_digits_app _ _ _ _ Hd E).
Qed.

Lemma scan_number_app s v r rest :
  delimited rest ->
  scan_number s = Some (v, r) -> scan_number (s ++ rest) = Some (v, r ++ rest).
Proof.
  intros Hd H. unfold scan_number in *.
  destruct s as [|c s]; [discriminate|]. cbn [app].
  destruct (code c =? 45)%N.
  - destruct (scan_int_part s) as [[ip s2]|] eqn:E1; [|discriminate].
    rewrite (scan_int_part_app _ _ _ _ Hd E1).
    destruct (scan_frac s2) as [fr s3] eqn:E2.
    rewrite (scan_frac_app _ _ _ _ Hd E2).
    destruct (scan_exp s3) as [ex s4] eqn:E3.
    rewrite (scan_exp_app _ _ _ _ Hd E3).
    destruct fr, ex; injection H as <- <-; reflexivity.
  - destruct (scan_int_part (c :: s)) as [[ip s2]|] eqn:E1; [|discriminate].
    change (c :: s ++ rest) with ((c :: s) ++ rest).
    rewrite (scan_int_part_app _ _ _ _ Hd E1).
    destruct (scan_frac s2) as [fr s3] eqn:E2.
    rewrite (scan_frac_app _ _ _ _ Hd E2).
    destruct (scan_exp s3) as [ex s4] eqn:E3.
    rewrite (scan_exp_app _ _ _ _ Hd E3).
    destruct fr, ex; injection H as <- <-; reflexivity.
Qed.

Lemma is_digit_code c : is_digit c = true -> (48 <= code c <= 57)%N.
Proof.
  unfold is_digit. intro H. apply andb_true_iff in H as [H1 H2].
  apply N.leb_le in H1, H2. lia.
Qed.

Lemma digits_value_N_digits n : digits_value (N_digits n) 0 = n.
Proof. destruct (N_digits_spec n) as (_ & _ & H & _). rewrite H. lia. Qed.

Lemma scan_int_part_N_digits n :
  scan_int_part (N_digits n) = Some (N_digits n, []).
Proof.
  destruct (N_digits_spec n) as (Hne & Hall & _ & Hhead).
  destruct (N_digits n) as [|c r]; [contradiction|].
  cbn [forallb] in Hall. apply andb_true_iff in Hall as [Hc Hr].
  cbn [scan_int_part]. destruct (N.eqb_spec (code c) 48) as [E|E].
  - destruct (Hhead E) as [_ ->]. reflexivity.
  - now rewrite Hc, (span_digits_all r Hr).
Qed.

Lemma N_digits_head n :
  exists c r, N_digits n = c :: r /\ is_digit c = true.
Proof.
  destruct (N_digits_spec n) as (Hne & Hall & _ & _).
  destruct (N_digits n) as [|c r]; [contradiction|].
  cbn [forallb] in Hall. apply andb_true_iff in Hall as [Hc _]. eauto.
Qed.

Lemma scan_number_nat n :
  scan_number (N_digits n) = Some (PInt (Z.of_N n), []).
Proof.
  unfold scan_number.
  destruct (N_digits_head n) as (c & r & E & Hc).
  pose proof (scan_int_part_N_digits n) as Hs.
  pose proof (digits_value_N_digits n) as Hv.
  rewrite E in *. apply is_digit_code in Hc.
  destruct (N.eqb_spec (code c) 45) as [E'|_]; [lia|].
  rewrite Hs. cbn [scan_frac scan_exp]. now rewrite Hv.
Qed.

Lemma scan_number_int z : scan_number (int_repr z) = Some (PInt z, []).
Proof.
  destruct z as [|p|p]; cbn [int_repr].
  - apply (scan_number_nat 0).
  - rewrite scan_number_nat. reflexivity.
  - unfold scan_number.
    replace (code "-"%char =? 45)%N with true by reflexivity.
    rewrite scan_int_part_N_digits. cbn [scan_frac scan_exp].
    now rewrite digits_value_N_digits.
Qed.

(** An integer reads back as itself. *)
Lemma scan_number_int_app z rest :
  delimited rest -> scan_number (int_repr z ++ rest) = Some (PInt z, rest).
Proof.
  intro Hd. exact (scan_number_app _ _ _ _ Hd (scan_number_int z)).
Qed.


(** ** Reading strings back *)

Lemma hex_val_hex_char d : (d < 16)%N -> hex_val (hex_char d) = Some d.
Proof.
  intro H. rewrite <- (N2Nat.id d) in *.
  assert (Hn : (N.to_nat d < 16)%nat) by lia. clear H.
  generalize dependent (N.to_nat d). intros n Hn.
  do 16 (destruct n as [|n]; [reflexivity|]). lia.
Qed.

Lemma decode_hex4_hex4 n :
  (n < 65536)%N ->
  decode_hex4 (hex_char ((n / 4096) mod 16)) (hex_char ((n / 256) mod 16))
              (hex_char ((n / 16) mod 16)) (hex_char (n mod 16)) = Some n.
Proof.
  intro H. unfold decode_hex4.
  rewrite !hex_val_hex_char by (apply N.mod_lt; lia).
  f_equal.
  replace (n / 256)%N with (n / 16 / 16)%N by (rewrite N.Div0.div_div; reflexivity).
  replace (n / 4096)%N with (n / 16 / 16 / 16)%N
    by (rewrite !N.Div0.div_div; reflexivity).
  pose proof (N.div_mod n 16 ltac:(lia)) as E0.
  pose proof (N.div_mod (n / 16) 16 ltac:(lia)) as E1.
  pose proof (N.div_mod (n / 16 / 16) 16 ltac:(lia)) as E2.
  assert (E3 : (n / 16 / 16 / 16 < 16)%N).
  { rewrite !N.Div0.div_div. apply N.Div0.div_lt_upper_bound. lia. }
  rewrite (N.mod_small _ _ E3). lia.
Qed.

Lemma lor_shiftl_small a x k :
  (x < 2 ^ k)%N -> N.lor (N.shiftl a k) x = (N.shiftl a k + x)%N.
Proof.
  intro H. rewrite <- N.lxor_lor, N.add_nocarry_lxor; try reflexivity.
  all: apply N.bits_inj; intro i; rewrite N.land_spec, N.bits_0.
  all: destruct (N.ltb_spec i k) as [Hi|Hi];
    [ now rewrite (N.shiftl_spec_low a k i Hi)
    | rewrite <- (N.mod_small x (2 ^ k) H), (N.mod_pow2_bits_high x k i Hi);
      apply andb_false_r ].
Qed.

Lemma high_surrogate_of n :
  (n < 1048576)%N ->
  N.lor 55296 (N.land (N.shiftr n 10) 1023) = (55296 + n / 1024)%N.
Proof.
  intro H. change 1023%N with (N.ones 10). rewrite N.land_ones, N.shiftr_div_pow2.
  change (2 ^ 10)%N with 1024%N.
  assert (Hq : (n / 1024 < 1024)%N) by (apply N.Div0.div_lt_upper_bound; lia).
  rewrite (N.mod_small _ _ Hq).
  change 55296%N with (N.shiftl 54 10). now apply lor_shiftl_small.
Qed.

Lemma low_surrogate_of n :
  N.lor 56320 (N.land n 1023) = (56320 + n mod 1024)%N.
Proof.
  change 1023%N with (N.ones 10). rewrite N.land_ones.
  change (2 ^ 10)%N with 1024%N.
  change 56320%N with (N.shiftl 55 10). apply lor_shiftl_small.
  apply N.mod_lt. discriminate.
Qed.

Lemma join_surrogates n :
  (n < 1048576)%N ->
  (65536 + N.lor (N.shiftl (55296 + n / 1024 - 55296) 10)
                 (56320 + n mod 1024 - 56320))%N = (65536 + n)%N.
Proof.
  intro H.
  rewrite (N.add_comm 55296), (N.add_comm 56320), !N.add_sub.
  rewrite lor_shiftl_small by (apply N.mod_lt; discriminate).
  rewrite N.shiftl_mul_pow2. change (2 ^ 10)%N with 1024%N.
  pose proof (N.div_mod n 1024 ltac:(lia)) as E.
  rewrite (N.mul_comm 1024) in E. f_equal. symmetry. exact E.
Qed.

Lemma scanstring_u_escape n tail :
  (n < 65536)%N -> is_high_surrogate n = false ->
  scanstring (u_escape n ++ tail) = cons_fst n (scanstring tail).
Proof.
  intros Hn Hs. unfold u_escape, hex4. cbn [app].
  cbn [scanstring]. 
  replace (code backslash =? 34)%N with false by reflexivity.
  replace (code backslash =? 92)%N with true by reflexivity.
  replace (code "u"%char =? 117)%N with true by reflexivity.
  cbv iota. rewrite (decode_hex4_hex4 n Hn). rewrite Hs.
  destruct tail as [|b [|u [|g1 [|g2 [|g3 [|g4 r3]]]]]]; reflexivity.
Qed.

Lemma scanstring_pair n tail :
  (n < 1048576)%N ->
  scanstring (u_escape (55296 + n / 1024) ++ u_escape (56320 + n mod 1024) ++ tail)
  = cons_fst (65536 + n)%N (scanstring tail).
Proof.
  intro Hn.
  assert (Hq : (n / 1024 < 1024)%N) by (apply N.Div0.div_lt_upper_bound; lia).
  assert (Hr : (n mod 1024 < 1024)%N) by (apply N.mod_lt; discriminate).
  assert (Hhi : (55296 <= 55296 + n / 1024 <= 56319)%N)
    by (revert Hq; generalize (n / 1024)%N; intros; lia).
  assert (Hlo : (56320 <= 56320 + n mod 1024 <= 57343)%N)
    by (revert Hr; generalize (n mod 1024)%N; intros; lia).
  set (hi := (55296 + n / 1024)%N) in *. set (lo := (56320 + n mod 1024)%N) in *.
  unfold u_escape, hex4. cbn [app]. cbn [scanstring].
  replace (code backslash =? 34)%N with false by reflexivity.
  replace (code backslash =? 92)%N with true by reflexivity.
  replace (code "u"%char =? 117)%N with true by reflexivity.
  cbv iota.
  rewrite (decode_hex4_hex4 hi) by lia. rewrite (decode_hex4_hex4 lo) by lia.
  replace (is_high_surrogate hi) with true
    by (symmetry; apply andb_true_iff; split; apply N.leb_le; lia).
  replace (is_low_surrogate lo) with true
    by (symmetry; apply andb_true_iff; split; apply N.leb_le; lia).
  cbn [andb]. unfold hi, lo. now rewrite join_surrogates.
Qed.

Lemma scanstring_escape_code c tail :
  is_unicode_scalar c = true ->
  scanstring (escape_code c ++ tail) = cons_fst c (scanstring tail).
Proof.
  intro Hv. unfold escape_code.
  destruct (N.eqb_spec c 34) as [->|N34]; [reflexivity|].
  destruct (N.eqb_spec c 92) as [->|N92]; [reflexivity|].
  destruct (N.eqb_spec c 10) as [->|N10]; [reflexivity|].
  destruct (N.eqb_spec c 13) as [->|N13]; [reflexivity|].
  destruct (N.eqb_spec c 9) as [->|N9]; [reflexivity|].
  destruct (N.eqb_spec c 12) as [->|N12]; [reflexivity|].
  destruct (N.eqb_spec c 8) as [->|N8]; [reflexivity|].
  unfold is_unicode_scalar in Hv.
  destruct (N.leb_spec 32 c) as [H32|H32]; cbn [andb].
  - destruct (N.leb_spec c 126) as [H126|H126].
    + cbn [app scanstring]. rewrite code_ascii_of_N by lia.
      destruct (N.eqb_spec c 34); [contradiction|].
      destruct (N.eqb_spec c 92); [contradiction|].
      destruct (N.ltb_spec c 32); [lia|].
      destruct (N.ltb_spec 127 c); [lia|]. reflexivity.
    + destruct (N.ltb_spec c 65536) as [Hlt|Hge].
      * apply scanstring_u_escape; [assumption|].
        unfold is_high_surrogate.
        destruct (N.ltb_spec c 55296); cbn [orb] in Hv.
        -- apply andb_false_iff. left. apply N.leb_gt. lia.
        -- apply andb_true_iff in Hv as [Hv _]. apply N.leb_le in Hv.
           apply andb_false_iff. right. apply N.leb_gt. lia.
      * assert (Hc : (c < 1114112)%N).
        { destruct (N.ltb_spec c 55296); [lia|]. cbn [orb] in Hv.
          apply andb_true_iff in Hv as [_ Hv]. now apply N.ltb_lt in Hv. }
        rewrite high_surrogate_of by lia. rewrite low_surrogate_of.
        rewrite <- app_assoc. rewrite scanstring_pair by lia.
        f_equal. lia.
  - destruct (N.ltb_spec c 65536) as [Hlt|Hge]; [|lia].
    apply scanstring_u_escape; [assumption|].
    apply andb_false_iff. left. apply N.leb_gt. lia.
Qed.

(** A string of well-formed text reads back as itself. *)
Lemma scanstring_encode s rest :
  valid_str s = true ->
  scanstring (flat_map escape_code s ++ quote :: rest) = Some (s, rest).
Proof.
  induction s as [|c s IH]; intro H; [reflexivity|].
  cbn [valid_str forallb] in H. apply andb_true_iff in H as [Hc Hs].
  cbn [flat_map]. rewrite <- app_assoc, scanstring_escape_code by assumption.
  unfold valid_str in IH. now rewrite IH.
Qed.


(** ** Whitespace *)

Lemma skip_ws_visible c r : is_ws c = false -> skip_ws (c :: r) = c :: r.
Proof. intro H. cbn [skip_ws]. now rewrite H. Qed.

Lemma skip_ws_indent k x : skip_ws (List.concat (repeat indent k) ++ x) = skip_ws x.
Proof. induction k as [|k IH]; [reflexivity|]. cbn. exact IH. Qed.

Lemma skip_ws_newline_indent k x : skip_ws (newline_indent k ++ x) = skip_ws x.
Proof. unfold newline_indent. cbn [app skip_ws]. apply skip_ws_indent. Qed.

Lemma valid_str_of_text x : valid_str (str_of_text x) = true.
Proof.
  unfold valid_str, str_of_text.
  induction x as [|c x IH]; [reflexivity|]. cbn [map forallb].
  rewrite IH, andb_true_r.
  pose proof (code_lt_256 c). unfold is_unicode_scalar.
  apply orb_true_iff. left. apply N.ltb_lt. lia.
Qed.

Lemma float_same_eq x y : float_same x y = true -> x = y.
Proof.
  destruct x, y; cbn; try discriminate; intro H.
  - now apply eqb_prop in H as ->.
  - now apply eqb_prop in H as ->.
  - reflexivity.
  - apply andb_true_iff in H as [H He]. apply andb_true_iff in H as [Hs Hm].
    apply eqb_prop in Hs. apply Pos.eqb_eq in Hm. apply Z.eqb_eq in He.
    now subst.
Qed.

(** ** Reading scalars back *)

Lemma scan_number_head c s res :
  scan_number (c :: s) = Some res ->
  code c = 45%N \/ (48 <= code c <= 57)%N.
Proof.
  unfold scan_number. destruct (N.eqb_spec (code c) 45) as [E|E]; [now left|].
  intros H. right.
  destruct (scan_int_part (c :: s)) as [[ip s2]|] eqn:E1; [|discriminate].
  cbn [scan_int_part] in E1.
  destruct (N.eqb_spec (code c) 48) as [E0|E0]; [lia|].
  destruct (is_digit c) eqn:Hd; [|discriminate]. now apply is_digit_code.
Qed.

Lemma number_start_visible c :
  code c = 45%N \/ (48 <= code c <= 57)%N ->
  is_ws c = false /\ code c <> 93%N /\ code c <> 34%N.
Proof.
  intro H. unfold is_ws. repeat split; try lia.
  repeat (apply orb_false_iff; split); apply N.eqb_neq; lia.
Qed.

Lemma scan_once_number f s v r :
  scan_number s = Some (v, r) -> scan_once (S f) s = Some (v, r).
Proof.
  intro H. destruct s as [|c s]; [discriminate|].
  pose proof (scan_number_head _ _ _ H) as Hh.
  cbn [scan_once].
  destruct (N.eqb_spec (code c) 34); [lia|].
  destruct (N.eqb_spec (code c) 123); [lia|].
  destruct (N.eqb_spec (code c) 91); [lia|].
  cbn [strip_prefix t list_ascii_of_string].
  destruct (Ascii.eqb_spec "n" c) as [<-|_]; [cbn in Hh; lia|].
  destruct (Ascii.eqb_spec "t" c) as [<-|_]; [cbn in Hh; lia|].
  destruct (Ascii.eqb_spec "f" c) as [<-|_]; [cbn in Hh; lia|].
  now rewrite H.
Qed.



Lemma float_token x rest f :
  float_reads_back x = true -> delimited rest ->
  scan_once (S f) (floatstr x ++ rest) = Some (PFloat x, rest).
Proof.
  intros H Hd.
  assert (Hgen : (exists y, scan_number (floatstr x) = Some (PFloat y, [])
                            /\ float_same x y = true) ->
                 scan_once (S f) (floatstr x ++ rest) = Some (PFloat x, rest)).
  { intros (y & Hs & Hy). apply float_same_eq in Hy. subst y.
    apply scan_once_number.
    exact (scan_number_app _ _ _ _ Hd Hs). }
  destruct x as [s|[|]| |s m e]; try reflexivity.
  - apply Hgen. unfold float_reads_back in H.
    destruct (scan_number (floatstr (S754_zero s))) as [[[| | |y| | | | | | | |] [|? ?]]|];
      try discriminate. eauto.
  - apply Hgen. unfold float_reads_back in H.
    destruct (scan_number (floatstr (S754_finite s m e)))
      as [[[| | |y| | | | | | | |] [|? ?]]|]; try discriminate. eauto.
Qed.

Lemma float_start x :
  float_reads_back x = true -> value_start (floatstr x).
Proof.
  intro H.
  assert (Hgen : (exists y, scan_number (floatstr x) = Some (PFloat y, [])) ->
                 value_start (floatstr x)).
  { intros (y & Hs). destruct (floatstr x) as [|c s]; [discriminate|].
    apply scan_number_head in Hs. apply number_start_visible in Hs.
    cbn. tauto. }
  destruct x as [s|[|]| |s m e]; try (cbn; split; [reflexivity|discriminate]).
  - apply Hgen. unfold float_reads_back in H.
    destruct (scan_number (floatstr (S754_zero s))) as [[[| | |y| | | | | | | |] [|? ?]]|];
      try discriminate. eauto.
  - apply Hgen. unfold float_reads_back in H.
    destruct (scan_number (floatstr (S754_finite s m e)))
      as [[[| | |y| | | | | | | |] [|? ?]]|]; try discriminate. eauto.
Qed.

Lemma int_start z : value_start (int_repr z).
Proof.
  pose proof (scan_number_int z) as H.
  destruct (int_repr z) as [|c s]; [discriminate|].
  apply scan_number_head in H. apply number_start_visible in H. cbn. tauto.
Qed.

Lemma string_token s rest f :
  valid_str s = true ->
  scan_once (S f) (encode_basestring_ascii s ++ rest) = Some (PStr s, rest).
Proof.
  intro H. unfold encode_basestring_ascii. cbn [app scan_once].
  replace (code quote =? 34)%N with true by reflexivity.
  rewrite <- app_assoc. cbn [app]. now rewrite scanstring_encode.
Qed.

Lemma text_starts v : forall level,
  well_formed v = true -> raised (iterencode v level) = None ->
  value_start (written (iterencode v level)).
Proof.
  induction v using pyobj_induction; intros level Hwf Hok;
    try (cbn; split; [reflexivity|discriminate]); try discriminate Hok.
  - destruct b; cbn; split; (reflexivity || discriminate).
  - apply int_start.
  - now apply float_start.
  - destruct l; cbn; split; (reflexivity || discriminate).
  - destruct d as [|[k v] d]; cbn; split; (reflexivity || discriminate).
  - now apply float_start.
  - cbn [iterencode] in *. cbn [well_formed] in Hwf. auto.
Qed.

(** ** Reading arrays and objects back *)

Lemma delimited_newline_indent k x : delimited (newline_indent k ++ x).
Proof. right. reflexivity. Qed.

Lemma skip_ws_start s x : value_start s -> skip_ws (s ++ x) = s ++ x.
Proof.
  destruct s as [|c s]; [contradiction|]. intros [H _]. cbn [app].
  now apply skip_ws_visible.
Qed.

Lemma start_not_close s x :
  value_start s -> exists c r, s ++ x = c :: r /\ is_ws c = false /\ code c <> 93%N.
Proof.
  destruct s as [|c s]; [contradiction|]. intros [H1 H2]. cbn [app]. eauto.
Qed.

Lemma array_items_spec l : forall level k rest fuel,
  l <> [] ->
  Forall reads_back l ->
  forallb well_formed l = true ->
  Forall (fun v => raised (iterencode v level) = None) l ->
  (List.length (intercalate (item_separator ++ newline_indent level)
                  (map (fun v => written (iterencode v level)) l)) < fuel)%nat ->
  array_items fuel
    (intercalate (item_separator ++ newline_indent level)
       (map (fun v => written (iterencode v level)) l)
     ++ newline_indent k ++ "]"%char :: rest)
  = Some (map json_safe l, rest).
Proof.
  induction l as [|v l IH]; intros level k rest fuel Hne Hrb Hwf Hok Hlen;
    [contradiction|].
  inversion Hrb as [|? ? Hv Hrb']; subst. inversion Hok as [|? ? Hokv Hok']; subst.
  cbn [forallb] in Hwf. apply andb_true_iff in Hwf as [Hwfv Hwf'].
  destruct fuel as [|f]; [lia|].
  destruct l as [|v2 l].
  - cbn [map intercalate] in *. cbn [array_items].
    rewrite (Hv level _ f Hwfv Hokv ltac:(lia) (delimited_newline_indent k _)).
    rewrite skip_ws_newline_indent. cbn [skip_ws].
    replace (is_ws "]"%char) with false by reflexivity.
    replace (code "]"%char =? 93)%N with true by reflexivity. reflexivity.
  - set (l' := v2 :: l) in *.
    assert (Hl' : l' <> []) by discriminate.
    change (map (fun v => written (iterencode v level)) (v :: l'))
      with (written (iterencode v level)
              :: map (fun v => written (iterencode v level)) l') in *.
    assert (Hi : forall sep x xs, xs <> [] ->
               intercalate sep (x :: xs) = x ++ sep ++ intercalate sep xs).
    { intros sep x [|y ys] Hx; [contradiction|reflexivity]. }
    assert (Hm : map (fun v => written (iterencode v level)) l' <> [])
      by (unfold l'; discriminate).
    rewrite (Hi _ _ _ Hm) in *. clear Hi.
    set (I' := intercalate _ (map _ l')) in *.
    rewrite !length_app in Hlen.
    cbn [array_items]. rewrite <- !app_assoc.
    assert (Hd : delimited (item_separator ++ newline_indent level
                              ++ I' ++ newline_indent k ++ "]"%char :: rest))
      by (left; reflexivity).
    rewrite (Hv level _ f Hwfv Hokv ltac:(lia) Hd).
    cbn [item_separator t list_ascii_of_string app skip_ws].
    replace (is_ws ","%char) with false by reflexivity.
    replace (code ","%char =? 93)%N with false by reflexivity.
    replace (code ","%char =? 44)%N with true by reflexivity.
    rewrite skip_ws_newline_indent.
    assert (Hs : value_start I').
    { unfold I', l'. cbn [map].
      pose proof (text_starts v2 level) as Hts.
      inversion Hok' as [|? ? Hok2 _]; subst.
      cbn [forallb] in Hwf'. apply andb_true_iff in Hwf' as [Hwf2 _].
      specialize (Hts Hwf2 Hok2).
      destruct (written (iterencode v2 level)) as [|c r]; [contradiction|].
      destruct (map _ l); exact Hts. }
    rewrite (skip_ws_start _ _ Hs). unfold I'.
    rewrite (IH level k rest f Hl' Hrb' Hwf' Hok'); [reflexivity|].
    fold I'. cbn [item_separator t list_ascii_of_string List.length app] in Hlen. lia.
Qed.


Lemma intercalate_cons sep (x : text) xs :
  xs <> [] -> intercalate sep (x :: xs) = x ++ sep ++ intercalate sep xs.
Proof. destruct xs; [contradiction|reflexivity]. Qed.

Lemma object_members_spec d : forall level k rest fuel,
  d <> [] ->
  Forall (fun kv => reads_back (snd kv)) d ->
  forallb (fun kv => match kv with (key, v) => valid_str key && well_formed v end) d
    = true ->
  Forall (fun kv => raised (iterencode (snd kv) level) = None) d ->
  (List.length (intercalate (item_separator ++ newline_indent level ++ [quote])
                  (map (member_text level) d)) < fuel)%nat ->
  object_members fuel
    (intercalate (item_separator ++ newline_indent level ++ [quote])
       (map (member_text level) d)
     ++ newline_indent k ++ "}"%char :: rest)
  = Some (map (fun kv => match kv with (key, v) => (key, json_safe v) end) d, rest).
Proof.
  induction d as [|[key v] d IH]; intros level k rest fuel Hne Hrb Hwf Hok Hlen;
    [contradiction|].
  inversion Hrb as [|? ? Hv Hrb']; subst. inversion Hok as [|? ? Hokv Hok']; subst.
  cbn [snd] in Hv, Hokv.
  cbn [forallb] in Hwf. apply andb_true_iff in Hwf as [Hwfv Hwf'].
  apply andb_true_iff in Hwfv as [Hkey Hwfv].
  destruct fuel as [|f]; [lia|].
  pose proof (text_starts v level Hwfv Hokv) as Hstart.
  assert (Hstep : forall R,
             delimited R ->
             (List.length (written (iterencode v level)) <= f)%nat ->
             object_members (S f) (member_text level (key, v) ++ R) =
             match skip_ws R with
             | c2 :: r3 =>
                 if (code c2 =? 125)%N then Some ([(key, json_safe v)], r3)
                 else if (code c2 =? 44)%N then
                   match skip_ws r3 with
                   | q :: r4 =>
                       if (code q =? 34)%N then
                         cons_fst (key, json_safe v) (object_members f r4)
                       else None
                   | [] => None
                   end
                 else None
             | [] => None
             end).
  { intros R HR Hf. unfold member_text. cbn [fst snd object_members].
    rewrite <- app_assoc. cbn [app].
    rewrite (scanstring_encode key _ Hkey). rewrite <- app_assoc.
    change (skip_ws (key_separator ++ written (iterencode v level) ++ R))
      with (":"%char :: " "%char :: written (iterencode v level) ++ R).
    cbv iota beta.
    replace (code ":"%char =? 58)%N with true by reflexivity.
    change (skip_ws (" "%char :: written (iterencode v level) ++ R))
      with (skip_ws (written (iterencode v level) ++ R)).
    rewrite (skip_ws_start _ _ Hstart).
    now rewrite (Hv level R f Hwfv Hokv Hf HR). }
  destruct d as [|kv2 d].
  - cbn [map intercalate] in *.
    unfold member_text in Hlen. cbn [fst snd] in Hlen.
    rewrite !length_app in Hlen. cbn [List.length] in Hlen. rewrite length_app in Hlen.
    rewrite (Hstep _ (delimited_newline_indent k _)) by lia.
    rewrite skip_ws_newline_indent. cbn [skip_ws].
    replace (is_ws "}"%char) with false by reflexivity.
    replace (code "}"%char =? 125)%N with true by reflexivity. reflexivity.
  - set (d' := kv2 :: d) in *.
    assert (Hd' : d' <> []) by discriminate.
    change (map (member_text level) ((key, v) :: d'))
      with (member_text level (key, v) :: map (member_text level) d') in *.
    assert (Hm : map (member_text level) d' <> []) by (unfold d'; discriminate).
    rewrite (intercalate_cons _ _ _ Hm) in *.
    set (I' := intercalate _ (map _ d')) in *.
    rewrite !length_app in Hlen.
    unfold member_text in Hlen at 1. cbn [fst snd] in Hlen.
    rewrite !length_app in Hlen. cbn [List.length] in Hlen. rewrite length_app in Hlen.
    rewrite <- !app_assoc.
    assert (Hdl : delimited (item_separator ++ newline_indent level ++ [quote]
                               ++ I' ++ newline_indent k ++ "}"%char :: rest))
      by (left; reflexivity).
    rewrite (Hstep _ Hdl) by lia.
    cbn [item_separator t list_ascii_of_string app skip_ws].
    replace (is_ws ","%char) with false by reflexivity.
    replace (code ","%char =? 125)%N with false by reflexivity.
    replace (code ","%char =? 44)%N with true by reflexivity.
    rewrite skip_ws_newline_indent. cbn [app skip_ws].
    replace (is_ws quote) with false by reflexivity.
    replace (code quote =? 34)%N with true by reflexivity.
    unfold I'.
    rewrite (IH level k rest f Hd' Hrb' Hwf' Hok'); [reflexivity|].
    fold I'. lia.
Qed.

(** ** Dictionaries with distinct keys *)

Lemma distinct_NoDup ks : distinct ks = true -> NoDup ks.
Proof.
  induction ks as [|k ks IH]; intro H; [constructor|].
  cbn [distinct] in H. apply andb_true_iff in H as [Hk Hks].
  constructor; [|auto]. intro Hin. apply negb_true_iff in Hk.
  assert (existsb (str_eqb k) ks = true)
    by (apply existsb_exists; exists k; split; [assumption|apply str_eqb_refl]).
  congruence.
Qed.

Lemma dict_set_fresh d k v :
  ~ In k (map fst d) -> dict_set d k v = d ++ [(k, v)].
Proof.
  induction d as [|[k' v'] d IH]; intro H; [reflexivity|].
  cbn [dict_set map fst In] in *.
  destruct (str_eqb k k') eqn:E.
  - apply str_eqb_eq in E. subst. exfalso. apply H. now left.
  - rewrite IH by tauto. reflexivity.
Qed.

Lemma fold_dict_set items : forall acc,
  NoDup (map fst acc ++ map fst items) ->
  fold_left (fun d kv => dict_set d (fst kv) (snd kv)) items acc = acc ++ items.
Proof.
  induction items as [|[k v] items IH]; intros acc H; [now rewrite app_nil_r|].
  cbn [fold_left map fst snd] in *.
  rewrite dict_set_fresh.
  - rewrite IH; [now rewrite <- app_assoc|].
    rewrite map_app, <- app_assoc. exact H.
  - apply NoDup_remove_2 in H. intro Hin. apply H. apply in_or_app. now left.
Qed.

Lemma py_dict_distinct items :
  distinct (map fst items) = true -> py_dict items = items.
Proof.
  intro H. unfold py_dict. rewrite fold_dict_set; [reflexivity|].
  now apply distinct_NoDup.
Qed.

Lemma intercalate_quoted sep (f : str * pyobj -> text) l :
  l <> [] ->
  intercalate sep (map (fun x => quote :: f x) l)
  = quote :: intercalate (sep ++ [quote]) (map f l).
Proof.
  induction l as [|x l IH]; intro H; [contradiction|].
  destruct l as [|y l]; [reflexivity|].
  change (map (fun x => quote :: f x) (x :: y :: l))
    with ((quote :: f x) :: map (fun x => quote :: f x) (y :: l)).
  change (map f (x :: y :: l)) with (f x :: map f (y :: l)).
  rewrite !intercalate_cons by discriminate.
  rewrite IH by discriminate. cbn [app]. rewrite <- !app_assoc. reflexivity.
Qed.

Lemma iterencode_dict_ok d level :
  d <> [] ->
  raised (iterencode (PDict d) level) = None ->
  Forall (fun kv => raised (iterencode (snd kv) (S level)) = None) d
  /\ written (iterencode (PDict d) level) =
     "{"%char :: newline_indent (S level)
       ++ quote :: intercalate (item_separator ++ newline_indent (S level) ++ [quote])
                     (map (member_text (S level)) d)
       ++ newline_indent level ++ t "}".
Proof.
  intros Hne H. rewrite iterencode_dict in *.
  destruct d as [|kv0 d0]; [contradiction|]. set (d := kv0 :: d0) in *.
  apply raised_then_none in H as [_ H]. apply raised_then_none in H as [H _].
  apply join_raised_none in H.
  assert (Hall : Forall (fun kv => raised (iterencode (snd kv) (S level)) = None) d).
  { rewrite Forall_forall in *. intros kv Hin.
    specialize (H _ (in_map _ _ _ Hin)). now apply raised_then_none in H as [_ H]. }
  split; [exact Hall|].
  rewrite (join_ok _ _ H). rewrite map_map.
  rewrite (map_ext_in _ (fun kv => quote :: member_text (S level) kv)).
  - rewrite intercalate_quoted by assumption.
    unfold yield, andthen; cbn [written raised]. cbn [app].
    rewrite <- !app_assoc. reflexivity.
  - intros kv Hin. rewrite Forall_forall in Hall. specialize (Hall kv Hin).
    rewrite written_then by reflexivity. cbn [written yield].
    unfold member_text, encode_basestring_ascii. cbn [app].
    rewrite <- !app_assoc. reflexivity.
Qed.

(** ** Every value reads back *)

Lemma start_nonempty s : value_start s -> (1 <= List.length s)%nat.
Proof. destruct s; [contradiction|]. cbn. lia. Qed.

Lemma length_newline_indent k : (1 <= List.length (newline_indent k))%nat.
Proof. cbn. lia. Qed.

(** Every value reads back as its JSON-safe form. *)
Theorem all_read_back v : reads_back v.
Proof.
  induction v using pyobj_induction; intros level rest fuel Hwf Hok Hlen Hd;
    try discriminate Hok.
  - destruct fuel as [|f]; [cbn in Hlen; lia|]. reflexivity.
  - destruct fuel as [|f]; [destruct b; cbn in Hlen; lia|]. destruct b; reflexivity.
  - pose proof (start_nonempty _ (int_start z)) as Hn.
    cbn [iterencode written yield] in *.
    destruct fuel as [|f]; [lia|].
    apply scan_once_number. now apply scan_number_int_app.
  - cbn [iterencode written yield well_formed json_safe] in *.
    pose proof (start_nonempty _ (float_start x Hwf)) as Hn.
    destruct fuel as [|f]; [lia|]. now apply float_token.
  - cbn [iterencode written yield well_formed json_safe] in *.
    destruct fuel as [|f]; [cbn in Hlen; lia|]. now apply string_token.
  - (* lists *)
    destruct l as [|v0 l0].
    { destruct fuel as [|f]; [cbn in Hlen; lia|]. reflexivity. }
    set (l := v0 :: l0) in *.
    destruct (iterencode_list_ok l level Hok) as [Hall Heq].
    rewrite Heq in *. cbn [written yield] in *.
    rewrite map_map in *.
    assert (Hall' : Forall (fun v => raised (iterencode v (S level)) = None) l)
      by (rewrite Forall_map in Hall; exact Hall).
    cbn [well_formed] in Hwf.
    unfold array_text in *.
    destruct (map (fun v => written (iterencode v (S level))) l) as [|x0 xs0] eqn:Em;
      [discriminate Em|]. rewrite <- Em in *. clear Em x0 xs0.
    set (I := intercalate _ _) in *.
    assert (Hs : value_start I).
    { unfold I, l. cbn [map].
      inversion Hall' as [|? ? Hok0 _]; subst.
      cbn [forallb] in Hwf. apply andb_true_iff in Hwf as [Hwf0 _].
      pose proof (text_starts v0 (S level) Hwf0 Hok0) as Hts.
      destruct (written (iterencode v0 (S level))) as [|c r]; [contradiction|].
      destruct (map _ l0); exact Hts. }
    cbn [app List.length] in Hlen. rewrite !length_app in Hlen.
    pose proof (length_newline_indent (S level)).
    destruct fuel as [|f]; [lia|].
    cbn [app scan_once].
    replace (code "["%char =? 34)%N with false by reflexivity.
    replace (code "["%char =? 123)%N with false by reflexivity.
    replace (code "["%char =? 91)%N with true by reflexivity.
    rewrite <- !app_assoc. rewrite skip_ws_newline_indent.
    rewrite (skip_ws_start _ _ Hs).
    destruct (start_not_close I (newline_indent level ++ t "]" ++ rest) Hs)
      as (c & r & Ec & _ & Hc).
    rewrite Ec. destruct (N.eqb_spec (code c) 93); [contradiction|].
    rewrite <- Ec. unfold I.
    change (t "]" ++ rest) with ("]"%char :: rest).
    rewrite (array_items_spec l (S level) level rest f); try assumption;
      [reflexivity|discriminate|fold I; lia].
  - (* dictionaries *)
    destruct d as [|kv0 d0].
    { destruct fuel as [|f]; [cbn in Hlen; lia|]. reflexivity. }
    set (d := kv0 :: d0) in *.
    assert (Hne : d <> []) by discriminate.
    destruct (iterencode_dict_ok d level Hne Hok) as [Hall Heq].
    rewrite Heq in *.
    cbn [well_formed] in Hwf. apply andb_true_iff in Hwf as [Hdist Hwf].
    set (I := intercalate _ _) in *.
    cbn [app List.length] in Hlen. rewrite !length_app in Hlen.
    cbn [List.length] in Hlen. rewrite length_app in Hlen.
    pose proof (length_newline_indent (S level)).
    destruct fuel as [|f]; [lia|].
    cbn [app scan_once].
    replace (code "{"%char =? 34)%N with false by reflexivity.
    replace (code "{"%char =? 123)%N with true by reflexivity.
    rewrite <- !app_assoc. rewrite skip_ws_newline_indent.
    cbn [app skip_ws].
    replace (is_ws quote) with false by reflexivity.
    replace (code quote =? 125)%N with false by reflexivity.
    replace (code quote =? 34)%N with true by reflexivity.
    rewrite <- !app_assoc. unfold I.
    change (t "}" ++ rest) with ("}"%char :: rest).
    rewrite (object_members_spec d (S level) level rest f); try assumption;
      [|fold I; lia].
    cbn [json_safe]. rewrite py_dict_distinct; [reflexivity|].
    rewrite map_map.
    rewrite (map_ext _ fst); [exact Hdist|]. now intros [k v].
  - cbn [iterencode written yield well_formed json_safe] in *.
    pose proof (start_nonempty _ (float_start _ Hwf)) as Hn.
    destruct fuel as [|f]; [lia|]. now apply float_token.
  - cbn [iterencode written yield well_formed json_safe] in *.
    destruct fuel as [|f]; [cbn in Hlen; lia|].
    apply string_token, valid_str_of_text.
  - cbn [iterencode written yield well_formed json_safe] in *.
    destruct fuel as [|f]; [cbn in Hlen; lia|].
    apply string_token, valid_str_of_text.
  - cbn [iterencode written yield well_formed json_safe] in *.
    destruct fuel as [|f]; [cbn in Hlen; lia|].
    apply string_token, valid_str_of_text.
  - cbn [iterencode well_formed json_safe] in *. now apply IHv.
Qed.

(** Writing the JSON-safe form of a value gives the same text. *)
Lemma json_safe_same_text v : forall level,
  raised (iterencode v level) = None ->
  iterencode (json_safe v) level = iterencode v level.
Proof.
  induction v using pyobj_induction; intros level Hok; try reflexivity;
    try discriminate Hok.
  - cbn [json_safe]. rewrite !iterencode_list.
    destruct (iterencode_list_ok l level Hok) as [Hall _].
    destruct l as [|v0 l0]; [reflexivity|]. set (l := v0 :: l0) in *.
    destruct (map json_safe l) as [|y ys] eqn:Em; [discriminate Em|].
    rewrite <- Em. clear Em y ys. cbv iota.
    apply (f_equal (fun X => yield ("["%char :: newline_indent (S level)) >>
                             join (item_separator ++ newline_indent (S level)) X >>
                             yield (newline_indent level ++ t "]"))).
    rewrite map_map. apply map_ext_in. intros v Hin.
    rewrite Forall_forall in H. apply H; [assumption|].
    rewrite Forall_map, Forall_forall in Hall. now apply Hall.
  - cbn [json_safe]. rewrite !iterencode_dict.
    destruct d as [|kv0 d0]; [reflexivity|]. set (d := kv0 :: d0) in *.
    destruct (iterencode_dict_ok d level ltac:(discriminate) Hok) as [Hall _].
    destruct (map (fun kv => match kv with (k, v) => (k, json_safe v) end) d)
      as [|y ys] eqn:Em; [discriminate Em|]. rewrite <- Em. clear Em y ys.
    cbv iota.
    apply (f_equal (fun X => yield ("{"%char :: newline_indent (S level)) >>
                             join (item_separator ++ newline_indent (S level)) X >>
                             yield (newline_indent level ++ t "}"))).
    rewrite map_map. apply map_ext_in. intros [k v] Hin. cbn [fst snd].
    f_equal. rewrite Forall_forall in H, Hall.
    apply (H (k, v) Hin). exact (Hall (k, v) Hin).
  - cbn [json_safe iterencode] in *. now apply IHv.
Qed.

(** What is written for a value reads back as its JSON-safe form, and
    writing that again gives the same text. *)
Theorem dump_load_dump v :
  well_formed v = true ->
  raised (json_dump v) = None ->
  json_loads (written (json_dump v)) = Some (json_safe v)
  /\ json_dump (json_safe v) = json_dump v.
Proof.
  intros Hwf Hok. unfold json_dump in *. split.
  - unfold json_loads.
    pose proof (text_starts v 0 Hwf Hok) as Hs.
    pose proof (skip_ws_start _ [] Hs) as Hsk. rewrite app_nil_r in Hsk.
    rewrite Hsk.
    pose proof (all_read_back v 0%nat [] (S (List.length (written (iterencode v 0))))
                  Hwf Hok ltac:(lia) I) as Hr.
    rewrite app_nil_r in Hr. rewrite Hr. reflexivity.
  - now apply json_safe_same_text.
Qed.

(** ** Written files read back *)

Lemma rows_as_dicts rows :
  rows_well_formed rows = true ->
  forallb well_formed (map PDict (map py_dict rows)) = true.
Proof.
  unfold rows_well_formed. induction rows as [|r rows IH]; [reflexivity|].
  cbn [forallb map]. intro H. apply andb_true_iff in H as [Hr H].
  rewrite (IH H), andb_true_r.
  assert (Hd : distinct (map fst r) = true)
    by (cbn [well_formed] in Hr; now apply andb_true_iff in Hr as [Hr _]).
  now rewrite (py_dict_distinct r Hd).
Qed.

Lemma envelope_well_formed E rows :
  rows_well_formed rows = true ->
  well_formed (PDict (envelope (reading E 0) (map py_dict rows))) = true.
Proof.
  intro H. unfold envelope. cbn [well_formed map fst forallb].
  rewrite (rows_as_dicts rows H).
  unfold reading. rewrite valid_str_of_text. reflexivity.
Qed.





(** The scenario of the specification: one row with
    [raw_price = Decimal("12.50")]. *)
Example scenario_file :
  let o := script (mock with_project (Ok [scenario_row])) (start no_files) in
  exit_code o = 0
  /\ files (final o) (job_path CardMetrics) =
     Some (lines_of
       [ "{";
         "  'last_updated': '2024-01-15T10:30:00+00:00',";
         "  'record_count': 1,";
         "  'data': [";
         "    {";
         "      'set_id': 'SV1',";
         "      'month': '2024-01',";
         "      'card_number': '001',";
         "      'raw_price': 12.5";
         "    }";
         "  ]";
         "}" ]%string)
  /\ (exists now,
        option_map json_loads (files (final o) (job_path CardMetrics)) =
        Some (Some (PDict
          [ (s_ "last_updated", PStr now);
            (s_ "record_count", PInt 1);
            (s_ "data",
             PList [PDict [ (s_ "set_id", PStr (s_ "SV1"));
                            (s_ "month", PStr (s_ "2024-01"));
                            (s_ "card_number", PStr (s_ "001"));
                            (s_ "raw_price",
                             PFloat (S754_finite false 7036874417766400 (-49))) ]]) ]))).
Proof.
  cbv zeta. repeat apply conj; [| |eexists]; vm_compute; reflexivity.
Qed.

(** * Beyond the specification: more of what the code does *)

(** ** How a run ends *)

Lemma head_differs (a b : str) : hd 0%N a <> hd 0%N b -> a <> b.
Proof. intros H E. apply H. now rewrite E. Qed.

Lemma running_not_done sql : running sql <> s_ "Done.".
Proof. apply head_differs. vm_compute. discriminate. Qed.

Lemma written_line_not_done n p : written_line n p <> s_ "Done.".
Proof. apply head_differs. vm_compute. discriminate. Qed.

Ltac not_done H :=
  cbn [In app] in H;
  repeat match type of H with
  | _ \/ _ => destruct H as [H|H]
  end;
  try contradiction;
  try (exfalso; first [ exact (running_not_done _ H)
                      | exact (written_line_not_done _ _ H) ]).


Lemma str_eqb_neq a b : a <> b -> str_eqb a b = false.
Proof.
  intro H. destruct (str_eqb a b) eqn:E; [|reflexivity].
  apply str_eqb_eq in E. contradiction.
Qed.

(** X2.  A run touches no file but its two outputs: whatever else the
    file system holds is the same after the run, however the run ends. *)
Theorem other_files_untouched (E : surroundings) (fs : str -> option text)
    (p : str) :
  p <> job_path CardMetrics ->
  p <> job_path SetMetrics ->
  files (final (script E (start fs))) p = fs p.
Proof.
  intros H1 H2. apply str_eqb_neq in H1, H2.
  destruct (load_globals E) as [G|e0] eqn:HG;
    [ run_cases E G; finish_run
    | unfold script; rewrite HG; unfold uncaught, eprint, start;
      cbn [exit_code final files events ticks stdout stderr app] ].
  all: cbv beta; cbn [job_path] in *; rewrite ?H1, ?H2; reflexivity.
Qed.

Ltac unify_answers :=
  repeat match goal with
  | H : Ok _ = Ok _ |- _ => injection H as H; subst
  | H : Raise _ = Raise _ |- _ => injection H as H; subst
  | H : Some _ = Some _ |- _ => injection H as H; subst
  end.




(** X6.  [write_json] writes the file before it looks up [record_count]: a
    payload without that key leaves a complete file behind and then
    raises [KeyError] without printing the progress line. *)
Theorem write_json_without_record_count (payload : dict) (filename : str)
    (w : world) :
  dict_get payload (s_ "record_count") = None ->
  raised (json_dump (PDict payload)) = None ->
  let path := OUTPUT_DIR ++ s_ "/" ++ filename in
  let r := write_json payload filename w in
  fst r = Raise (Exn KeyError (s_ "'record_count'"))
  /\ files (snd r) path = Some (written (json_dump (PDict payload)))
  /\ events (snd r) = events w ++ [EWrite path true]
  /\ stdout (snd r) = stdout w.
Proof.
  intros Hk Hok path r. subst path r.
  unfold write_json, bind, dump_to_file, set_file, getitem. cbv zeta.
  rewrite Hok, Hk. unfold raise. cbn [fst snd files events stdout].
  rewrite str_eqb_refl. repeat apply conj; reflexivity.
Qed.

Lemma join_raised_iff sep outs :
  raised (join sep outs) = None <-> Forall (fun o => raised o = None) outs.
Proof.
  split; [apply join_raised_none|].
  intro H. now rewrite (join_ok _ _ H).
Qed.

Lemma container_raised a b outs sep :
  raised (yield a >> join sep outs >> yield b) = None
  <-> Forall (fun o => raised o = None) outs.
Proof.
  rewrite <- join_raised_iff with (sep := sep).
  rewrite yield_then. cbn [raised]. unfold andthen.
  destruct (raised (join sep outs)) eqn:Hj; cbn [raised yield]; rewrite ?Hj;
    split; congruence.
Qed.

Lemma serializable_iff_no_exception_aux v :
  forall level, serializable v = true <-> raised (iterencode v level) = None.
Proof.
  induction v using pyobj_induction; intro level;
    try (cbn; split; (reflexivity || discriminate)).
  - destruct b; cbn; split; reflexivity.
  - rewrite iterencode_list. destruct l as [|v0 l0]; [cbn; tauto|].
    set (l := v0 :: l0) in *. cbv iota. clearbody l.
    rewrite container_raised. cbn [serializable].
    rewrite forallb_forall, Forall_map, Forall_forall.
    rewrite Forall_forall in H.
    split; intros Hx v Hv; apply (H v Hv (S level)); auto.
  - rewrite iterencode_dict. destruct d as [|kv0 d0]; [cbn; tauto|].
    set (d := kv0 :: d0) in *. cbv iota. clearbody d.
    rewrite container_raised. cbn [serializable].
    rewrite forallb_forall, Forall_map, Forall_forall.
    rewrite Forall_forall in H.
    split; intros Hx kv Hkv.
    + rewrite yield_then. cbn [raised]. apply (H kv Hkv (S level)). auto.
    + specialize (Hx kv Hkv). rewrite yield_then in Hx. cbn [raised] in Hx.
      now apply (H kv Hkv (S level)) in Hx.
  - cbn [serializable iterencode]. apply IHv.
Qed.


Lemma dict_set_all (P : pyobj -> bool) d k v :
  forallb (fun kv => P (snd kv)) d = true -> P v = true ->
  forallb (fun kv => P (snd kv)) (dict_set d k v) = true.
Proof.
  induction d as [|[k' v'] d IH]; cbn [dict_set forallb snd]; intros Hd Hv.
  - now rewrite Hv.
  - apply andb_true_iff in Hd as [H1 H2].
    destruct (str_eqb k k'); cbn [forallb snd].
    + now rewrite Hv, H2.
    + now rewrite H1, IH.
Qed.

Lemma py_dict_all (P : pyobj -> bool) items :
  forallb (fun kv => P (snd kv)) items = true ->
  forallb (fun kv => P (snd kv)) (py_dict items) = true.
Proof.
  unfold py_dict.
  assert (Hgen : forall acc,
             forallb (fun kv => P (snd kv)) acc = true ->
             forallb (fun kv => P (snd kv)) items = true ->
             forallb (fun kv => P (snd kv))
               (fold_left (fun d kv => dict_set d (fst kv) (snd kv)) items acc)
             = true).
  { induction items as [|[k v] items IH]; intros acc Ha Hi; [exact Ha|].
    cbn [forallb snd] in Hi. apply andb_true_iff in Hi as [Hv Hi].
    cbn [fold_left fst snd]. apply IH; [|exact Hi]. now apply dict_set_all. }
  intro H. now apply Hgen.
Qed.

Lemma envelope_serializable now rows :
  rows_serializable rows = true ->
  raised (json_dump (PDict (envelope now (map py_dict rows)))) = None.
Proof.
  intro H. apply serializable_iff_no_exception_aux.
  unfold envelope. cbn [serializable forallb snd]. rewrite andb_true_r.
  unfold rows_serializable in H. rewrite map_map. cbn [andb].
  induction rows as [|r rows IH]; [reflexivity|].
  cbn [forallb map] in *. apply andb_true_iff in H as [Hr H].
  rewrite (IH H), andb_true_r. cbn [serializable]. now apply py_dict_all.
Qed.


Lemma plain_app x y : plain x -> plain y -> plain (x ++ y).
Proof. intros. now apply Forall_app. Qed.

Lemma plain_cons c x : printable c = true -> plain x -> plain (c :: x).
Proof. now constructor. Qed.

Lemma plain_t_closed x : forallb printable x = true -> plain x.
Proof. intro H. apply Forall_forall. now apply forallb_forall. Qed.

Lemma plain_repeat c n : printable c = true -> plain (repeat c n).
Proof. intro H. induction n; cbn; [constructor|now constructor]. Qed.

Lemma plain_firstn n x : plain x -> plain (firstn n x).
Proof.
  unfold plain. intro H. apply Forall_forall. intros c Hc.
  rewrite Forall_forall in H. apply H.
  rewrite <- (firstn_skipn n x). apply in_or_app. now left.
Qed.

Lemma plain_skipn n x : plain x -> plain (skipn n x).
Proof.
  unfold plain. intro H. apply Forall_forall. intros c Hc.
  rewrite Forall_forall in H. apply H.
  rewrite <- (firstn_skipn n x). apply in_or_app. now right.
Qed.

Lemma plain_strip_zeros_rev x : plain x -> plain (strip_zeros_rev x).
Proof.
  induction 1 as [|c x Hc Hx IH]; cbn [strip_zeros_rev]; [constructor|].
  destruct (Ascii.eqb c "0"); [exact IH|now constructor].
Qed.

Lemma digit_printable c : is_digit c = true -> printable c = true.
Proof.
  unfold is_digit, printable. intro H.
  apply andb_true_iff in H as [H1 H2].
  apply N.leb_le in H1, H2.
  apply orb_true_iff. right. apply andb_true_iff. split; apply N.leb_le; lia.
Qed.

Lemma plain_N_digits n : plain (N_digits n).
Proof.
  destruct (N_digits_spec n) as (_ & H & _).
  unfold plain. apply Forall_forall. intros c Hc. apply digit_printable.
  rewrite forallb_forall in H. now apply H.
Qed.

Lemma plain_zero_pad w n : plain (zero_pad w n).
Proof.
  unfold zero_pad. apply plain_app; [now apply plain_repeat|apply plain_N_digits].
Qed.

Lemma plain_int_repr z : plain (int_repr z).
Proof.
  destruct z; cbn [int_repr]; try apply plain_N_digits.
  apply plain_cons; [reflexivity|apply plain_N_digits].
Qed.

Ltac plain_step :=
  first [ apply plain_app | apply plain_cons; [reflexivity|]
        | apply plain_zero_pad | apply plain_N_digits
        | apply plain_repeat; reflexivity
        | apply plain_firstn | apply plain_skipn
        | apply plain_t_closed; reflexivity
        | assumption ].

Lemma plain_format_float_short ds decpt :
  plain ds -> plain (format_float_short ds decpt).
Proof.
  intro H. unfold format_float_short.
  repeat match goal with
  | |- context [if ?b then _ else _] => destruct b
  end; repeat plain_step.
Qed.

Lemma plain_float_repr x : plain (float_repr x).
Proof.
  destruct x as [s|s| |s m e]; cbn [float_repr];
    try (destruct s; apply plain_t_closed; reflexivity);
    try (apply plain_t_closed; reflexivity).
  destruct (float_digits m e) as [ds decpt] eqn:Hd.
  assert (Hds : plain ds).
  { unfold float_digits in Hd.
    destruct (shortest _ _ _ _ _ _ _) as [c p].
    injection Hd as <- _.
    apply Forall_rev, plain_strip_zeros_rev, Forall_rev, plain_N_digits. }
  apply plain_app; [destruct s; repeat plain_step|].
  now apply plain_format_float_short.
Qed.

Lemma plain_floatstr x : plain (floatstr x).
Proof.
  destruct x as [s|[|]| |s m e]; try apply plain_float_repr;
    apply plain_t_closed; reflexivity.
Qed.

Lemma hex_char_printable d : (d < 16)%N -> printable (hex_char d) = true.
Proof.
  intro H.
  assert (Hall : forallb (fun n => printable (hex_char (N.of_nat n))) (seq 0 16) = true)
    by reflexivity.
  rewrite forallb_forall in Hall.
  specialize (Hall (N.to_nat d)). rewrite N2Nat.id in Hall.
  apply Hall. apply in_seq. lia.
Qed.

Lemma plain_u_escape n : plain (u_escape n).
Proof.
  unfold u_escape, hex4.
  repeat (apply plain_cons;
          [first [reflexivity | apply hex_char_printable, N.mod_lt; discriminate]|]).
  constructor.
Qed.

Lemma plain_escape_code c : plain (escape_code c).
Proof.
  unfold escape_code.
  repeat match goal with
  | |- context [if ?b then _ else _] => destruct b eqn:?
  end; try (apply plain_t_closed; reflexivity);
    try apply plain_u_escape;
    try (apply plain_app; apply plain_u_escape).
  apply plain_cons; [|constructor].
  apply andb_true_iff in Heqb6 as [H1 H2]. apply N.leb_le in H1, H2.
  unfold printable, code. rewrite N_ascii_embedding by lia.
  apply orb_true_iff. right. apply andb_true_iff. split; apply N.leb_le; lia.
Qed.

Lemma plain_encode_basestring_ascii s : plain (encode_basestring_ascii s).
Proof.
  unfold encode_basestring_ascii. apply plain_cons; [reflexivity|].
  apply plain_app; [|apply plain_t_closed; reflexivity].
  induction s as [|c s IH]; cbn [flat_map]; [constructor|].
  apply plain_app; [apply plain_escape_code|exact IH].
Qed.

Lemma plain_newline_indent level : plain (newline_indent level).
Proof.
  unfold newline_indent. apply plain_cons; [reflexivity|].
  induction level; cbn [repeat concat]; [constructor|].
  apply plain_app; [apply plain_t_closed; reflexivity|exact IHlevel].
Qed.

Lemma plain_then a b :
  plain (written a) -> plain (written b) -> plain (written (a >> b)).
Proof.
  intros Ha Hb. unfold andthen. destruct (raised a); [exact Ha|].
  cbn [written]. now apply plain_app.
Qed.

Lemma plain_join sep outs :
  plain sep -> Forall (fun o => plain (written o)) outs ->
  plain (written (join sep outs)).
Proof.
  intros Hs H. induction H as [|o outs Ho Houts IH]; [constructor|].
  destruct outs as [|o' outs]; [exact Ho|].
  change (join sep (o :: o' :: outs)) with (o >> yield sep >> join sep (o' :: outs)).
  apply plain_then; [exact Ho|]. apply plain_then; [exact Hs|exact IH].
Qed.

(** X9.  Whatever the values, and whether or not the encoder completes,
    every character [json.dump] writes is a printable ASCII character or
    a line break: in the file, opened with the encoding UTF-8, every
    character is one byte. *)
Theorem written_text_is_ascii (v : pyobj) (level : nat) :
  forallb printable (written (iterencode v level)) = true.
Proof.
  apply forallb_forall. apply Forall_forall. fold (plain (written (iterencode v level))).
  revert level.
  induction v using pyobj_induction; intro level;
    try (apply plain_t_closed; reflexivity).
  - destruct b; apply plain_t_closed; reflexivity.
  - apply plain_int_repr.
  - apply plain_floatstr.
  - apply plain_encode_basestring_ascii.
  - rewrite iterencode_list. destruct l as [|v0 l0]; [apply plain_t_closed; reflexivity|].
    set (l := v0 :: l0) in *. clearbody l. cbv iota.
    apply plain_then; [cbn [written yield]; apply plain_cons;
                        [reflexivity|apply plain_newline_indent]|].
    apply plain_then.
    + apply plain_join.
      * apply plain_app; [apply plain_t_closed; reflexivity|apply plain_newline_indent].
      * unfold plain in *. apply Forall_map. revert H. apply Forall_impl. auto.
    + cbn [written yield]. apply plain_app;
        [apply plain_newline_indent|apply plain_t_closed; reflexivity].
  - rewrite iterencode_dict. destruct d as [|kv0 d0]; [apply plain_t_closed; reflexivity|].
    set (d := kv0 :: d0) in *. clearbody d. cbv iota.
    apply plain_then; [cbn [written yield]; apply plain_cons;
                        [reflexivity|apply plain_newline_indent]|].
    apply plain_then.
    + apply plain_join.
      * apply plain_app; [apply plain_t_closed; reflexivity|apply plain_newline_indent].
      * unfold plain in *. apply Forall_map. revert H. apply Forall_impl. intros kv Hkv.
        apply plain_then; [|apply Hkv].
        cbn [written yield]. apply plain_app;
          [apply plain_encode_basestring_ascii|apply plain_t_closed; reflexivity].
    + cbn [written yield]. apply plain_app;
        [apply plain_newline_indent|apply plain_t_closed; reflexivity].
  - apply plain_floatstr.
  - apply plain_encode_basestring_ascii.
  - apply plain_encode_basestring_ascii.
  - apply plain_encode_basestring_ascii.
  - cbn [iterencode]. apply IHv.
Qed.

Lemma int_repr_no_mark z : existsb float_mark (int_repr z) = false.
Proof.
  assert (Hd : forall n, existsb float_mark (N_digits n) = false).
  { intro n. destruct (N_digits_spec n) as (_ & H & _).
    induction (N_digits n) as [|c ds IH]; [reflexivity|].
    cbn [forallb existsb] in *. apply andb_true_iff in H as [Hc H].
    rewrite (IH H). unfold float_mark. now rewrite Hc. }
  destruct z; cbn [int_repr existsb]; apply Hd.
Qed.

Lemma existsb_here {A} (f : A -> bool) x c y :
  f c = true -> existsb f (x ++ c :: y) = true.
Proof.
  intro H. rewrite existsb_app. cbn [existsb]. rewrite H.
  now rewrite orb_true_r.
Qed.

Lemma format_float_short_mark ds decpt :
  existsb float_mark (format_float_short ds decpt) = true.
Proof.
  unfold format_float_short.
  destruct ((decpt <=? -4) || (16 <? decpt)).
  - rewrite app_assoc. now apply existsb_here.
  - destruct (decpt <=? 0); [reflexivity|].
    destruct (Z.of_nat (List.length ds) <=? decpt).
    + rewrite app_assoc. now apply (existsb_here float_mark _ "."%char [ "0"%char ]).
    + now apply existsb_here.
Qed.

Lemma floatstr_mark x : existsb float_mark (floatstr x) = true.
Proof.
  destruct x as [[|]|[|]| |s m e]; try reflexivity.
  cbn [floatstr float_repr].
  destruct (float_digits m e) as [ds decpt].
  rewrite existsb_app, format_float_short_mark. apply orb_true_r.
Qed.

(** X10.  A [Decimal] and a [float] are never written as an integer
    literal: their text holds a character other than a digit and the
    sign (a decimal point, an exponent, or a letter of [NaN] and
    [Infinity]), the text of an [int] holds none.  A whole-number
    [NUMERIC] such as [12] arrives as [12.0]. *)
Theorem decimal_is_never_an_int_literal (d : decimal) (x : float) (z : Z)
    (level : nat) :
  existsb float_mark (written (iterencode (PDecimal d) level)) = true
  /\ existsb float_mark (written (iterencode (PFloat x) level)) = true
  /\ existsb float_mark (written (iterencode (PInt z) level)) = false
  /\ iterencode (PDecimal d) level <> iterencode (PInt z) level
  /\ written (json_dump (PDecimal (Decimal false 12 0))) = t "12.0".
Proof.
  cbn [iterencode written yield].
  repeat apply conj; try apply floatstr_mark; try apply int_repr_no_mark.
  - intro H. apply (f_equal written) in H. cbn [written yield] in H.
    pose proof (floatstr_mark (float_of_decimal d)) as H1.
    rewrite H, int_repr_no_mark in H1. discriminate.
  - vm_compute. reflexivity.
Qed.

Lemma json_safe_envelope now (rows : list row) :
  rows_well_formed rows = true ->
  json_safe (PDict (envelope now (map py_dict rows))) =
  PDict [ (s_ "last_updated", PStr now);
          (s_ "record_count", PInt (len (map (fun r => json_safe (PDict r)) rows)));
          (s_ "data", PList (map (fun r => json_safe (PDict r)) rows)) ].
Proof.
  intro H. unfold envelope, len. cbn [json_safe map]. rewrite !length_map.
  do 4 f_equal. f_equal. f_equal. rewrite !map_map.
  apply map_ext_in. intros r Hr.
  unfold rows_well_formed in H. rewrite forallb_forall in H.
  specialize (H r Hr). cbn [well_formed] in H.
  apply andb_true_iff in H as [H _]. now rewrite (py_dict_distinct r H).
Qed.


Lemma card_query_table G :
  names (CARD_METRICS_QUERY G)
        (table_ref (PROJECT_ID G) (DATASET G) (s_ "card_metrics")).
Proof.
  exists (nl ++ lines
    [ s_ "SELECT"; s_ "  set_id,"; s_ "  month,"; s_ "  card_number,";
      s_ "  card_name,"; s_ "  rarity,"; s_ "  raw_price,";
      s_ "  psa_10_price,"; s_ "  psa_9_price,"; s_ "  tag_10_price,";
      s_ "  ace_10_price,"; s_ "  cgc_10_price,"; s_ "  bgs_10_price,";
      s_ "  bgs_10_black_label_price,"; s_ "  cgc_10_pristine_price" ]),
    (lines [ s_ "ORDER BY"; s_ "  month DESC,"; s_ "  set_id,"; s_ "  card_number" ]).
  unfold CARD_METRICS_QUERY, table_ref, lines. cbn [flat_map].
  change (s_ ".card_metrics`") with (s_ "." ++ s_ "card_metrics" ++ s_ "`").
  rewrite <- !app_assoc. reflexivity.
Qed.

Lemma set_query_table G :
  names (SET_METRICS_QUERY G)
        (table_ref (PROJECT_ID G) (DATASET G) (s_ "set_metrics")).
Proof.
  exists (nl ++ lines
    [ s_ "SELECT"; s_ "  set_id,"; s_ "  month,"; s_ "  ev,";
      s_ "  set_value,"; s_ "  top_5_value,"; s_ "  top_5_ratio" ]),
    (lines [ s_ "ORDER BY"; s_ "  month DESC,"; s_ "  set_id" ]).
  unfold SET_METRICS_QUERY, table_ref, lines. cbn [flat_map].
  change (s_ ".set_metrics`") with (s_ "." ++ s_ "set_metrics" ++ s_ "`").
  rewrite <- !app_assoc. reflexivity.
Qed.

(** X12.  The tables the queries read.  The project is the value of
    [GCP_PROJECT_ID], the dataset the value of [BQ_DATASET] or, when that
    variable is not set, [tcg_price_oracle]; both are put into the query
    text as they are.  A run sends no query but these two. *)
Theorem queries_read_the_configured_tables (E : surroundings)
    (fs : str -> option text) (p : str) :
  environ_get (environ E) (s_ "GCP_PROJECT_ID") = Some p ->
  let d := match environ_get (environ E) (s_ "BQ_DATASET") with
           | Some d => d
           | None => s_ "tcg_price_oracle"
           end in
  forall sql,
    In (EQuery sql) (events (final (script E (start fs)))) ->
    names sql (table_ref p d (s_ "card_metrics"))
    \/ names sql (table_ref p d (s_ "set_metrics")).
Proof.
  intros Hp d sql.
  assert (HG : load_globals E = Ok (Globals p d))
    by (unfold load_globals; now rewrite Hp).
  pose proof (card_query_table (Globals p d)) as H1.
  pose proof (set_query_table (Globals p d)) as H2.
  cbn [PROJECT_ID DATASET] in H1, H2.
  run_cases E (Globals p d); finish_run; intro Hx; which_event Hx;
    subst sql; tauto.
Qed.

Lemma digits_value_lower ds : forall a,
  (a * 10 ^ N.of_nat (List.length ds) <= digits_value ds a)%N.
Proof.
  induction ds as [|c ds IH]; intro a; cbn [digits_value List.length].
  - change (10 ^ N.of_nat 0)%N with 1%N. lia.
  - specialize (IH (10 * a + digit_val c)%N).
    rewrite Nat2N.inj_succ, N.pow_succ_r'. nia.
Qed.

Lemma length_N_digits n w :
  (0 < w)%nat -> (n < 10 ^ N.of_nat w)%N -> (List.length (N_digits n) <= w)%nat.
Proof.
  intros Hw Hn. destruct (N_digits_spec n) as (Hne & Hd & Hv & Hz).
  destruct (N_digits n) as [|c r]; [contradiction|].
  destruct (N.eq_dec (code c) 48) as [E|E].
  - destruct (Hz E) as [_ ->]. cbn. lia.
  - cbn [forallb] in Hd. apply andb_true_iff in Hd as [Hc _].
    unfold is_digit in Hc. apply andb_true_iff in Hc as [H1 H2].
    apply N.leb_le in H1, H2.
    specialize (Hv 0%N). cbn [digits_value] in Hv.
    pose proof (digits_value_lower r (10 * 0 + digit_val c)%N) as Hl.
    rewrite Hv in Hl. unfold digit_val in Hl. cbn [List.length].
    assert (Hp : (10 ^ N.of_nat (List.length r) < 10 ^ N.of_nat w)%N).
    { eapply N.le_lt_trans; [|exact Hn].
      eapply N.le_trans; [|exact Hl].
      generalize (10 ^ N.of_nat (List.length r))%N. intro k. nia. }
    apply N.pow_lt_mono_r_iff in Hp; lia.
Qed.

Lemma length_zero_pad w n :
  (0 < w)%nat -> (n < 10 ^ N.of_nat w)%N -> List.length (zero_pad w n) = w.
Proof.
  intros Hw Hn. unfold zero_pad. rewrite length_app, repeat_length.
  pose proof (length_N_digits n w Hw Hn). lia.
Qed.

(** X13.  The timestamp [main] takes.  Whatever offset the clock reading
    carries, [last_updated] ends in [+00:00]; it has the seconds only, 25
    characters, when the reading has no microseconds, and six more digits
    after a point, 32 characters, otherwise. *)
Theorem timestamp_has_two_shapes (E : surroundings) (n : nat) :
  let d := clock E n in
  in_range d ->
  exists body,
    reading E n = str_of_text (body ++ t "+00:00")
    /\ List.length (reading E n)
       = (if (microsecond (dt_time d) =? 0)%N then 25%nat else 32%nat).
Proof.
  intros d (Hy & Hmo & Hd & Hh & Hmi & Hs & Hus).
  assert (Ho : format_offset (Some 0) = t "+00:00") by (vm_compute; reflexivity).
  unfold reading. fold d. unfold datetime_isoformat.
  cbn [dt_date dt_time utcoffset]. rewrite Ho.
  set (tm := Time _ _ _ _ _).
  exists (date_isoformat (dt_date d) ++ "T"%char :: format_time tm).
  split; [now rewrite <- app_assoc|].
  unfold str_of_text. rewrite length_map.
  unfold date_isoformat, format_time, tm.
  cbn [hour minute second microsecond].
  repeat (rewrite ?length_app; cbn [List.length]).
  rewrite !length_zero_pad by (try apply Nat.lt_0_succ; assumption).
  destruct (microsecond (dt_time d) =? 0)%N; cbn [List.length];
    rewrite ?length_zero_pad by (try apply Nat.lt_0_succ; assumption);
    reflexivity.
Qed.

Ltac fuel_step IHs IHo IHa :=
  cbv beta iota;
  match goal with
  | |- ?a = _ -> ?a = _ => exact (fun H => H)
  | |- None = Some _ -> _ => discriminate
  | |- context [match ?x with _ => _ end] =>
      lazymatch x with
      | scan_once _ _ =>
          let E := fresh "E" in
          destruct x as [[? ?]|] eqn:E; [rewrite (IHs _ _ E)|]
      | object_members _ _ =>
          let E := fresh "E" in
          destruct x as [[? ?]|] eqn:E; [rewrite (IHo _ _ E)|]
      | array_items _ _ =>
          let E := fresh "E" in
          destruct x as [[? ?]|] eqn:E; [rewrite (IHa _ _ E)|]
      | _ => destruct x
      end
  end.

Lemma fuel_can_grow f : more_fuel f.
Proof.
  induction f as [|f (IHs & IHo & IHa)]; [repeat split; discriminate|].
  repeat split; intros s r; remember (S f) as f1 eqn:Hf;
    [ change (scan_once (S f1) s) with
        ltac:(let x := eval cbn [scan_once] in (scan_once (S f1) s) in exact x)
    | change (object_members (S f1) s) with
        ltac:(let x := eval cbn [object_members] in (object_members (S f1) s) in exact x)
    | change (array_items (S f1) s) with
        ltac:(let x := eval cbn [array_items] in (array_items (S f1) s) in exact x) ];
    subst f1.
  - change (scan_once (S f) s) with
        ltac:(let x := eval cbn [scan_once] in (scan_once (S f) s) in exact x).
    unfold cons_fst. repeat fuel_step IHs IHo IHa.
  - change (object_members (S f) s) with
        ltac:(let x := eval cbn [object_members] in (object_members (S f) s) in exact x) at 1.
    unfold cons_fst. repeat fuel_step IHs IHo IHa.
  - change (array_items (S f) s) with
        ltac:(let x := eval cbn [array_items] in (array_items (S f) s) in exact x) at 1.
    unfold cons_fst. repeat fuel_step IHs IHo IHa.
Qed.

Lemma scan_once_more_fuel f f' s r :
  scan_once f s = Some r -> (f <= f')%nat -> scan_once f' s = Some r.
Proof.
  intros H Hle. induction Hle as [|f' _ IH]; [exact H|].
  now apply (fuel_can_grow f').
Qed.

(** With any fuel, the text of a complete value is read as the value or
    not at all. *)
Lemma read_or_nothing v level rest f :
  well_formed v = true -> raised (iterencode v level) = None -> delimited rest ->
  scan_once f (written (iterencode v level) ++ rest) = None
  \/ scan_once f (written (iterencode v level) ++ rest) = Some (json_safe v, rest).
Proof.
  intros Hwf Hok Hd.
  destruct (scan_once f _) as [p|] eqn:E; [right|now left].
  set (F := Nat.max f (List.length (written (iterencode v level)))).
  pose proof (scan_once_more_fuel f F _ _ E ltac:(lia)) as H1.
  pose proof (all_read_back v level rest F Hwf Hok ltac:(lia) Hd) as H2.
  congruence.
Qed.

Lemma scan_once_nil f : scan_once f [] = None.
Proof. destruct f; reflexivity. Qed.

Lemma array_items_nil f : array_items f [] = None.
Proof. destruct f as [|f]; [reflexivity|]. cbn [array_items]. now rewrite scan_once_nil. Qed.

Lemma join_cons_bad sep (o : output) outs :
  raised o <> None -> join sep (o :: outs) = o.
Proof.
  intro H. destruct outs as [|o' outs]; [reflexivity|].
  change (join sep (o :: o' :: outs)) with (o >> yield sep >> join sep (o' :: outs)).
  unfold andthen at 1. destruct (raised o); [reflexivity|contradiction].
Qed.

Lemma join_cons_ok sep (o : output) outs :
  raised o = None -> outs <> [] ->
  written (join sep (o :: outs)) = written o ++ sep ++ written (join sep outs)
  /\ raised (join sep (o :: outs)) = raised (join sep outs).
Proof.
  intros H Hne. destruct outs as [|o' outs]; [contradiction|].
  change (join sep (o :: o' :: outs)) with (o >> yield sep >> join sep (o' :: outs)).
  rewrite yield_then. unfold andthen. rewrite H. split; reflexivity.
Qed.

Lemma skip_ws_fragment x : x = [] \/ value_start x -> skip_ws x = x.
Proof.
  intros [->|H]; [reflexivity|]. rewrite <- (app_nil_r x). now apply skip_ws_start.
Qed.

Lemma array_items_fragment l : forall level f,
  l <> [] ->
  Forall leaves_fragment l ->
  forallb well_formed l = true ->
  let J := join (item_separator ++ newline_indent level)
             (map (fun v => iterencode v level) l) in
  raised J <> None ->
  array_items f (written J) = None /\ (written J = [] \/ value_start (written J)).
Proof.
  induction l as [|v l IH]; intros level f Hne Hfr Hwf J Hr; [contradiction|].
  subst J. inversion Hfr as [|? ? Hv Hfr']; subst.
  cbn [forallb] in Hwf. apply andb_true_iff in Hwf as [Hwfv Hwf'].
  cbn [map] in *.
  destruct (raised (iterencode v level)) as [e|] eqn:Hok.
  - assert (Hbad : raised (iterencode v level) <> None) by congruence.
    rewrite join_cons_bad by exact Hbad.
    destruct (Hv level Hwfv Hbad) as [Hun Hst]. split; [|exact Hst].
    destruct f as [|f]; [reflexivity|]. cbn [array_items]. now rewrite Hun.
  - destruct l as [|v' l'].
    { cbn [map join] in Hr. congruence. }
    set (l := v' :: l') in *.
    assert (Hne' : map (fun v => iterencode v level) l <> []) by discriminate.
    destruct (join_cons_ok (item_separator ++ newline_indent level) _ _ Hok Hne')
      as [Hw Hr'].
    rewrite Hr' in Hr. rewrite Hw.
    destruct (IH level (pred f) ltac:(discriminate) Hfr' Hwf' Hr) as [Hit Hst].
    pose proof (text_starts v level Hwfv Hok) as Hvs.
    split.
    + destruct f as [|f]; [reflexivity|]. cbn [array_items pred] in *.
      set (rest := (item_separator ++ newline_indent level) ++ _) in *.
      assert (Hd : delimited rest) by (left; reflexivity).
      destruct (read_or_nothing v level rest f Hwfv Hok Hd) as [->| ->];
        [reflexivity|].
      subst rest. rewrite <- app_assoc.
      change (item_separator ++ ?x) with (","%char :: x).
      rewrite skip_ws_visible by reflexivity.
      change (code ","%char =? 93)%N with false.
      change (code ","%char =? 44)%N with true. cbv iota.
      rewrite skip_ws_newline_indent, (skip_ws_fragment _ Hst), Hit.
      reflexivity.
    + right. destruct (written (iterencode v level)); [contradiction|exact Hvs].
Qed.

Lemma object_members_fragment d : forall level f,
  d <> [] ->
  Forall (fun kv => leaves_fragment (snd kv)) d ->
  forallb (fun kv => match kv with (key, v) => valid_str key && well_formed v end) d
    = true ->
  let J := join (item_separator ++ newline_indent level)
             (map (fun kv =>
                     yield (encode_basestring_ascii (fst kv) ++ key_separator) >>
                     iterencode (snd kv) level) d) in
  raised J <> None ->
  exists J0, written J = quote :: J0 /\ object_members f J0 = None.
Proof.
  induction d as [|[k v] d IH]; intros level f Hne Hfr Hwf J Hr; [contradiction|].
  subst J. inversion Hfr as [|? ? Hv Hfr']; subst. cbn [snd] in Hv.
  cbn [forallb] in Hwf. apply andb_true_iff in Hwf as [Hkv Hwf'].
  apply andb_true_iff in Hkv as [Hk Hwfv].
  cbn [map fst snd] in *. rewrite yield_then in *.
  set (A := flat_map escape_code k).
  destruct (raised (iterencode v level)) as [e|] eqn:Hok.
  - rewrite join_cons_bad by (cbn [raised]; congruence).
    assert (Hbad : raised (iterencode v level) <> None) by congruence.
    destruct (Hv level Hwfv Hbad) as [Hun Hst].
    exists (A ++ quote :: key_separator ++ written (iterencode v level)).
    split.
    + cbn [written]. unfold encode_basestring_ascii. fold A.
      cbn [app]. rewrite <- !app_assoc. reflexivity.
    + destruct f as [|f]; [reflexivity|]. cbn [object_members].
      unfold A. rewrite scanstring_encode by exact Hk.
      change (key_separator ++ ?x) with (":"%char :: " "%char :: x).
      rewrite skip_ws_visible by reflexivity.
      change (code ":"%char =? 58)%N with true. cbv iota.
      change (skip_ws (" "%char :: ?x)) with (skip_ws x).
      rewrite (skip_ws_fragment _ Hst), Hun. reflexivity.
  - destruct d as [|kv' d'].
    { cbn [map join raised] in Hr. congruence. }
    set (d := kv' :: d') in *.
    set (outs := map _ d) in *.
    assert (Hne' : outs <> []) by discriminate.
    destruct (join_cons_ok (item_separator ++ newline_indent level)
                (Out ((encode_basestring_ascii k ++ key_separator)
                        ++ written (iterencode v level)) None) outs eq_refl Hne')
      as [Hw Hr'].
    rewrite Hr' in Hr. rewrite Hw.
    destruct (IH level (pred f) ltac:(discriminate) Hfr' Hwf' Hr) as (J0 & HJ & Hom).
    fold outs in HJ. rewrite HJ.
    pose proof (text_starts v level Hwfv Hok) as Hvs.
    exists (A ++ quote :: key_separator ++ written (iterencode v level)
              ++ (item_separator ++ newline_indent level) ++ quote :: J0).
    split.
    + cbn [written]. unfold encode_basestring_ascii. fold A.
      cbn [app]. rewrite <- !app_assoc. reflexivity.
    + destruct f as [|f]; [reflexivity|]. cbn [object_members pred] in *.
      unfold A. rewrite scanstring_encode by exact Hk.
      change (key_separator ++ ?x) with (":"%char :: " "%char :: x).
      rewrite skip_ws_visible by reflexivity.
      change (code ":"%char =? 58)%N with true. cbv iota.
      change (skip_ws (" "%char :: ?x)) with (skip_ws x).
      rewrite (skip_ws_start _ _ Hvs).
      set (rest := (item_separator ++ newline_indent level) ++ _).
      assert (Hd : delimited rest) by (left; reflexivity).
      destruct (read_or_nothing v level rest f Hwfv Hok Hd) as [->| ->];
        [reflexivity|].
      subst rest. rewrite <- app_assoc.
      change (item_separator ++ ?x) with (","%char :: x).
      rewrite skip_ws_visible by reflexivity.
      change (code ","%char =? 125)%N with false.
      change (code ","%char =? 44)%N with true. cbv iota.
      rewrite skip_ws_newline_indent, skip_ws_visible by reflexivity.
      change (code quote =? 34)%N with true. cbv iota.
      rewrite Hom. reflexivity.
Qed.

Lemma fragment_of_list l level :
  l <> [] ->
  raised (iterencode (PList l) level) <> None ->
  let J := join (item_separator ++ newline_indent (S level))
             (map (fun v => iterencode v (S level)) l) in
  raised J <> None
  /\ written (iterencode (PList l) level)
     = "["%char :: newline_indent (S level) ++ written J.
Proof.
  intros Hne H J. rewrite iterencode_list in *.
  destruct l as [|v l]; [contradiction|]. fold J in H |- *.
  rewrite yield_then in *. cbn [raised written] in *.
  rewrite raised_then in H. unfold andthen.
  destruct (raised J) as [e|] eqn:HJ; [|cbn in H; congruence].
  split; [discriminate|reflexivity].
Qed.

Lemma fragment_of_dict d level :
  d <> [] ->
  raised (iterencode (PDict d) level) <> None ->
  let J := join (item_separator ++ newline_indent (S level))
             (map (fun kv =>
                     yield (encode_basestring_ascii (fst kv) ++ key_separator) >>
                     iterencode (snd kv) (S level)) d) in
  raised J <> None
  /\ written (iterencode (PDict d) level)
     = "{"%char :: newline_indent (S level) ++ written J.
Proof.
  intros Hne H J. rewrite iterencode_dict in *.
  destruct d as [|kv d]; [contradiction|]. fold J in H |- *.
  rewrite yield_then in *. cbn [raised written] in *.
  rewrite raised_then in H. unfold andthen.
  destruct (raised J) as [e|] eqn:HJ; [|cbn in H; congruence].
  split; [discriminate|reflexivity].
Qed.

(** What the encoder has written when it raises cannot be read. *)
Lemma all_leave_fragments v : leaves_fragment v.
Proof.
  induction v using pyobj_induction; intros level Hwf Hr;
    try (exfalso; apply Hr; reflexivity);
    try (split; [intro fuel; apply scan_once_nil|now left]).
  - destruct b; exfalso; apply Hr; reflexivity.
  - (* lists *)
    destruct l as [|v0 l0]; [exfalso; apply Hr; reflexivity|].
    set (l := v0 :: l0) in *.
    destruct (fragment_of_list l level ltac:(discriminate) Hr) as [HJ Hw].
    rewrite Hw. clear Hw. cbn [well_formed] in Hwf.
    split; [|right; split; [reflexivity|discriminate]].
    intros [|f]; [reflexivity|].
    destruct (array_items_fragment l (S level) f ltac:(discriminate) H Hwf HJ)
      as [Hit Hst].
    cbn [scan_once]. change (code "["%char =? 34)%N with false.
    change (code "["%char =? 123)%N with false.
    change (code "["%char =? 91)%N with true. cbv iota.
    rewrite skip_ws_newline_indent, (skip_ws_fragment _ Hst).
    set (W := written _) in *.
    destruct W as [|c1 r1]; [reflexivity|].
    destruct Hst as [Hst|Hst]; [discriminate Hst|].
    destruct Hst as [_ Hc]. apply N.eqb_neq in Hc. rewrite Hc, Hit. reflexivity.
  - (* dictionaries *)
    destruct d as [|kv0 d0]; [exfalso; apply Hr; reflexivity|].
    set (d := kv0 :: d0) in *.
    destruct (fragment_of_dict d level ltac:(discriminate) Hr) as [HJ Hw].
    rewrite Hw. cbn [well_formed] in Hwf. apply andb_true_iff in Hwf as [_ Hwf].
    split; [|right; split; [reflexivity|discriminate]].
    intros [|f]; [reflexivity|].
    destruct (object_members_fragment d (S level) f ltac:(discriminate) H Hwf HJ)
      as (J0 & HJ0 & Hom).
    cbn [scan_once]. change (code "{"%char =? 34)%N with false.
    change (code "{"%char =? 123)%N with true. cbv iota.
    rewrite skip_ws_newline_indent, HJ0, skip_ws_visible by reflexivity.
    change (code quote =? 125)%N with false.
    change (code quote =? 34)%N with true. cbv iota.
    rewrite Hom. reflexivity.
  - cbn [iterencode well_formed] in *. now apply IHv.
Qed.

Lemma failed_dump_unreadable v :
  well_formed v = true -> raised (json_dump v) <> None ->
  (forall fuel, scan_once fuel (skip_ws (written (json_dump v))) = None)
  /\ json_loads (written (json_dump v)) = None.
Proof.
  intros Hwf Hr. destruct (all_leave_fragments v 0%nat Hwf Hr) as [Hun Hst].
  unfold json_dump in *. unfold json_loads.
  rewrite (skip_ws_fragment _ Hst). split; [exact Hun|]. now rewrite Hun.
Qed.


Lemma json_safe_all_native v :
  serializable v = true -> all_native (json_safe v) = true.
Proof.
  induction v using pyobj_induction; intro Hs; try reflexivity;
    try discriminate Hs.
  - cbn [json_safe all_native serializable] in *.
    rewrite forallb_forall in *. intros y Hy.
    apply in_map_iff in Hy as (x & <- & Hx).
    rewrite Forall_forall in H. auto.
  - cbn [json_safe all_native serializable] in *.
    rewrite forallb_forall in *. intros y Hy.
    apply in_map_iff in Hy as ([k x] & <- & Hx).
    rewrite Forall_forall in H. cbn [snd]. apply (H (k, x) Hx). now apply (Hs (k, x)).
  - cbn [json_safe serializable] in *. auto.
Qed.


(** A text between two line breaks whose first and last characters are
    no whitespace is what [strip] keeps. *)
Lemma strip_framed (first last : N) (body : str) :
  is_space first = false -> is_space last = false ->
  strip (nl ++ (first :: body ++ [last]) ++ nl) = first :: body ++ [last].
Proof.
  intros Hf Hl. set (B := first :: body ++ [last]).
  assert (HB : rev B = last :: rev body ++ [first])
    by (unfold B; cbn [rev]; now rewrite rev_app_distr).
  assert (H1 : lstrip (nl ++ B ++ nl) = B ++ nl).
  { unfold B, nl. cbn [app lstrip]. change (is_space 10) with true.
    cbv iota. now rewrite Hf. }
  assert (H2 : lstrip (rev (B ++ nl)) = rev B).
  { rewrite rev_app_distr, HB. unfold nl. cbn [rev app lstrip].
    change (is_space 10) with true. cbv iota. now rewrite Hl. }
  unfold strip. rewrite H1, H2. apply rev_involutive.
Qed.

Lemma card_query_framed G :
  exists body,
    CARD_METRICS_QUERY G = nl ++ (s_ "SELECT" ++ body ++ s_ "card_number") ++ nl
    /\ strip (CARD_METRICS_QUERY G) = s_ "SELECT" ++ body ++ s_ "card_number".
Proof.
  set (body := nl ++ lines
    [ s_ "  set_id,"; s_ "  month,"; s_ "  card_number,";
      s_ "  card_name,"; s_ "  rarity,"; s_ "  raw_price,";
      s_ "  psa_10_price,"; s_ "  psa_9_price,"; s_ "  tag_10_price,";
      s_ "  ace_10_price,"; s_ "  cgc_10_price,"; s_ "  bgs_10_price,";
      s_ "  bgs_10_black_label_price,"; s_ "  cgc_10_pristine_price";
      s_ "FROM";
      s_ "  `" ++ PROJECT_ID G ++ s_ "." ++ DATASET G ++ s_ ".card_metrics`";
      s_ "ORDER BY"; s_ "  month DESC,"; s_ "  set_id," ] ++ s_ "  ").
  exists body.
  assert (Heq : CARD_METRICS_QUERY G
                = nl ++ (s_ "SELECT" ++ body ++ s_ "card_number") ++ nl).
  { unfold body, CARD_METRICS_QUERY, lines. cbn [flat_map].
    change (s_ "  card_number") with (s_ "  " ++ s_ "card_number").
    rewrite <- !app_assoc. reflexivity. }
  split; [exact Heq|]. rewrite Heq. clearbody body.
  change (s_ "SELECT") with (83%N :: s_ "ELECT").
  change (s_ "card_number") with (s_ "card_numbe" ++ [114%N]).
  replace ((83%N :: s_ "ELECT") ++ body ++ s_ "card_numbe" ++ [114%N])
    with (83%N :: (s_ "ELECT" ++ body ++ s_ "card_numbe") ++ [114%N])
    by (cbn [app]; now rewrite <- !app_assoc).
  now apply strip_framed.
Qed.

Lemma set_query_framed G :
  exists body,
    SET_METRICS_QUERY G = nl ++ (s_ "SELECT" ++ body ++ s_ "set_id") ++ nl
    /\ strip (SET_METRICS_QUERY G) = s_ "SELECT" ++ body ++ s_ "set_id".
Proof.
  set (body := nl ++ lines
    [ s_ "  set_id,"; s_ "  month,"; s_ "  ev,";
      s_ "  set_value,"; s_ "  top_5_value,"; s_ "  top_5_ratio";
      s_ "FROM";
      s_ "  `" ++ PROJECT_ID G ++ s_ "." ++ DATASET G ++ s_ ".set_metrics`";
      s_ "ORDER BY"; s_ "  month DESC," ] ++ s_ "  ").
  exists body.
  assert (Heq : SET_METRICS_QUERY G
                = nl ++ (s_ "SELECT" ++ body ++ s_ "set_id") ++ nl).
  { unfold body, SET_METRICS_QUERY, lines. cbn [flat_map].
    change (s_ "  set_id" ++ nl ++ []) with (s_ "  " ++ s_ "set_id" ++ nl ++ []).
    rewrite <- !app_assoc. reflexivity. }
  split; [exact Heq|]. rewrite Heq. clearbody body.
  change (s_ "SELECT") with (83%N :: s_ "ELECT").
  change (s_ "set_id") with (s_ "set_i" ++ [100%N]).
  replace ((83%N :: s_ "ELECT") ++ body ++ s_ "set_i" ++ [100%N])
    with (83%N :: (s_ "ELECT" ++ body ++ s_ "set_i") ++ [100%N])
    by (cbn [app]; now rewrite <- !app_assoc).
  now apply strip_framed.
Qed.

(** X16.  Every query a run sends is announced on the standard output,
    also when the query then fails.  The announcement is the line
    [Running query:] followed by the query from [SELECT] to its last
    word, without the line breaks around it, and a line break. *)
Theorem every_query_is_announced (E : surroundings) (G : globals)
    (fs : str -> option text) (sql : str) :
  load_globals E = Ok G ->
  let o := script E (start fs) in
  In (EQuery sql) (events (final o)) ->
  In (running sql) (stdout (final o)) /\ announced sql.
Proof.
  intros HG o. subst o.
  assert (H1 : announced (CARD_METRICS_QUERY G)).
  { destruct (card_query_framed G) as (body & Heq & Hs).
    exists (body ++ s_ "card_number"). unfold running. rewrite Hs.
    rewrite <- !app_assoc in *. split; [exact Heq|reflexivity]. }
  assert (H2 : announced (SET_METRICS_QUERY G)).
  { destruct (set_query_framed G) as (body & Heq & Hs).
    exists (body ++ s_ "set_id"). unfold running. rewrite Hs.
    rewrite <- !app_assoc in *. split; [exact Heq|reflexivity]. }
  run_cases E G; finish_run; intro Hx; which_event Hx; subst sql;
    (split; [in_events|assumption]).
Qed.

(** ** The statements above on concrete runs *)


Lemma other_files_untouched_witness :
  files (final (script (mock with_project (Ok [scenario_row])) (start old_files)))
        other_path = old_files other_path.
Proof.
  apply (other_files_untouched (mock with_project (Ok [scenario_row])) old_files
           other_path);
    intro H; apply (f_equal (fun s => nth 12 s 0%N)) in H; discriminate H.
Defined.




Lemma write_json_without_record_count_witness :
  fst (write_json [(s_ "data", PList [])] (s_ "x.json") (start no_files))
  = Raise (Exn KeyError (s_ "'record_count'")).
Proof.
  exact (proj1 (write_json_without_record_count [(s_ "data", PList [])]
                  (s_ "x.json") (start no_files) eq_refl eq_refl)).
Defined.



Lemma queries_read_the_configured_tables_witness :
  names (CARD_METRICS_QUERY my_globals)
        (table_ref (s_ "my-project") (s_ "tcg_price_oracle") (s_ "card_metrics"))
  \/ names (CARD_METRICS_QUERY my_globals)
           (table_ref (s_ "my-project") (s_ "tcg_price_oracle") (s_ "set_metrics")).
Proof.
  assert (H : In (EQuery (CARD_METRICS_QUERY my_globals))
                 (events (final (script (mock with_project (Ok [])) (start no_files)))))
    by (vm_compute; repeat first [ left; reflexivity | right ]).
  exact (queries_read_the_configured_tables (mock with_project (Ok [])) no_files
           (s_ "my-project") eq_refl (CARD_METRICS_QUERY my_globals) H).
Defined.

Lemma timestamp_has_two_shapes_witness :
  exists body,
    reading (mock with_project (Ok [])) 0 = str_of_text (body ++ t "+00:00")
    /\ List.length (reading (mock with_project (Ok [])) 0) = 25%nat.
Proof.
  assert (H : in_range (clock (mock with_project (Ok [])) 0))
    by (repeat split; reflexivity).
  exact (timestamp_has_two_shapes (mock with_project (Ok [])) 0 H).
Defined.



Lemma every_query_is_announced_witness :
  In (running (CARD_METRICS_QUERY my_globals))
     (stdout (final (script (mock with_project (Raise outage)) (start no_files))))
  /\ announced (CARD_METRICS_QUERY my_globals).
Proof.
  assert (H : In (EQuery (CARD_METRICS_QUERY my_globals))
                 (events (final (script (mock with_project (Raise outage))
                                   (start no_files)))))
    by (vm_compute; repeat first [ left; reflexivity | right ]).
  exact (every_query_is_announced (mock with_project (Raise outage)) my_globals
           no_files (CARD_METRICS_QUERY my_globals) eq_refl H).
Defined.
